(** * alloy-crm-demo: the two API routes and the React views, embedded in Rocq

    The repository is a Next.js application.  Its own code is
      - [pages/api/contacts.js]      (the Contact Gateway),
      - [pages/api/get-jwt-token.js] (the Session Bridge),
      - [components/CreateContact.js], [components/ContactList.js] and the
        page component [Home] (the Presentation Shell).

    Every function of those files is an [async] function that talks to a
    remote party through [axios], writes to the console and mutates one
    object it was handed (the Next.js [res] object, or the React state of
    the component).  The embedding keeps that shape: a handler is a term of
    a small free monad [prog] whose nodes are exactly those effects, and
    [run] executes such a term against an arbitrary remote party. *)

From Stdlib Require Import String Ascii List ZArith Bool Lia.
From ExtLib Require Import Structures.Monad Structures.MonadExc.
Import ListNotations.
Import MonadNotation.
Local Open Scope string_scope.
Local Open Scope monad_scope.

Set Implicit Arguments.
Set Warnings "-register-all".

(** ** JavaScript values *)

(** The values that cross the program: parsed JSON, plus [undefined].  A
    number is carried by its canonical decimal rendering; no function of the
    repository computes with numbers.  An object is the list of its own
    properties. *)
Inductive jsval : Type :=
| JUndefined
| JNull
| JBool (b : bool)
| JNum (repr : string)
| JStr (s : string)
| JArr (items : list jsval)
| JObj (fields : list (string * jsval)).

Fixpoint own_property (fields : list (string * jsval)) (key : string) : jsval :=
  match fields with
  | [] => JUndefined
  | (k, v) :: rest => if String.eqb k key then v else own_property rest key
  end.

(** The error objects the model itself raises. *)
Definition TypeError (message : string) : jsval :=
  JObj [("name", JStr "TypeError"); ("message", JStr message)].

(** [v.key] for the keys the repository reads ([token], [contacts]), none of
    which is inherited from a prototype: reading a property of [undefined] or
    [null] throws a TypeError, an object answers with its own property, every
    other value answers [undefined]. *)
Definition js_get (v : jsval) (key : string) : jsval + jsval :=
  match v with
  | JUndefined =>
      inl (TypeError ("Cannot read properties of undefined (reading '" ++ key ++ "')"))
  | JNull =>
      inl (TypeError ("Cannot read properties of null (reading '" ++ key ++ "')"))
  | JObj fields => inr (own_property fields key)
  | _ => inr JUndefined
  end.

(** Truthiness of a string: only the empty string is falsy. *)
Definition truthy_string (s : string) : bool :=
  negb (String.eqb s "").

(** ** Comparing a value with zero *)

(** The code point of a byte; a string holds the UTF-8 bytes of its text. *)
Definition byte (a : ascii) : Z := Z.of_nat (nat_of_ascii a).

(** [true] for TAB, LF, VT, FF, CR and SPACE. *)
Definition blank_byte (a : ascii) : bool :=
  ((9 <=? byte a) && (byte a <=? 13) || (byte a =? 32))%Z.

(** The white space and line terminators of more than one byte: U+00A0,
    U+1680, U+2000 to U+200A, U+2028, U+2029, U+202F, U+205F, U+3000 and
    U+FEFF. *)
Definition blank_pair (a b : ascii) : bool :=
  ((byte a =? 194) && (byte b =? 160))%Z.

Definition blank_triple (a b c : ascii) : bool :=
  ((byte a =? 225) && (byte b =? 154) && (byte c =? 128)
   || (byte a =? 226) && (byte b =? 128)
      && ((128 <=? byte c) && (byte c <=? 138)
          || (byte c =? 168) || (byte c =? 169) || (byte c =? 175))
   || (byte a =? 226) && (byte b =? 129) && (byte c =? 159)
   || (byte a =? 227) && (byte b =? 128) && (byte c =? 128)
   || (byte a =? 239) && (byte b =? 187) && (byte c =? 191))%Z.

(** The text without the white space it starts with. *)
Fixpoint skip_blank (s : string) : string :=
  match s with
  | String a r1 =>
      if blank_byte a then skip_blank r1
      else
        match r1 with
        | String b r2 =>
            if blank_pair a b then skip_blank r2
            else
              match r2 with
              | String c r3 => if blank_triple a b c then skip_blank r3 else s
              | EmptyString => s
              end
        | EmptyString => s
        end
  | EmptyString => s
  end.

Definition is_blank (s : string) : bool := String.eqb (skip_blank s) "".

(** The value of a digit in a radix up to 16. *)
Definition digit_in (radix : Z) (a : ascii) : option Z :=
  let d := (if (48 <=? byte a) && (byte a <=? 57) then byte a - 48
            else if (65 <=? byte a) && (byte a <=? 70) then byte a - 55
            else if (97 <=? byte a) && (byte a <=? 102) then byte a - 87
            else 16)%Z in
  if (d <? radix)%Z then Some d else None.

(** The digits a text starts with: their value after [acc], how many there
    are after [count], and the rest of the text. *)
Fixpoint read_digits (radix : Z) (s : string) (acc : Z) (count : nat)
  : Z * nat * string :=
  match s with
  | String a rest =>
      match digit_in radix a with
      | Some d => read_digits radix rest (acc * radix + d)%Z (S count)
      | None => (acc, count, s)
      end
  | EmptyString => (acc, count, s)
  end.

(** [0x], [0o] and [0b] literals: digits, at least one, then white space. *)
Definition nondecimal_gt_zero (radix : Z) (digits : string) : bool :=
  let '(m, count, rest) := read_digits radix digits 0%Z 0 in
  (0 <? count)%nat && is_blank rest && (0 <? m)%Z.

(** The exponent part a text starts with, when it has one. *)
Definition read_exponent (s : string) : Z * string :=
  match s with
  | String a r =>
      if ((byte a =? 101) || (byte a =? 69))%Z then
        let '(negative, r') :=
          match r with
          | String "+"%char r'' => (false, r'')
          | String "-"%char r'' => (true, r'')
          | _ => (false, r)
          end in
        let '(e, count, rest) := read_digits 10 r' 0%Z 0 in
        if (0 <? count)%nat then (if negative then (- e)%Z else e, rest)
        else (0%Z, s)
      else (0%Z, s)
  | EmptyString => (0%Z, s)
  end.

(** [m * 10 ^ scale] becomes a number above zero: it lies above half of the
    least positive number, [2 ^ -1075], below which a value rounds to zero. *)
Definition rounds_above_zero (m scale : Z) : bool :=
  ((0 <? m) && ((0 <=? scale) || (10 ^ (- scale) <? m * 2 ^ 1075)))%Z.

(** A decimal literal without sign, then white space. *)
Definition decimal_gt_zero (s : string) : bool :=
  if String.prefix "Infinity" s then
    is_blank (String.substring 8 (String.length s - 8) s)
  else
    let '(whole, whole_count, r1) := read_digits 10 s 0%Z 0 in
    let '(m, fraction_count, r2) :=
      match r1 with
      | String "."%char r => read_digits 10 r whole 0
      | _ => (whole, 0, r1)
      end in
    if ((0 <? whole_count) || (0 <? fraction_count))%nat then
      let '(e, rest) := read_exponent r2 in
      is_blank rest && rounds_above_zero m (e - Z.of_nat fraction_count)
    else false.

(** [Number(s) > 0]. *)
Definition string_gt_zero (s : string) : bool :=
  match skip_blank s with
  | String "0"%char (String x digits) =>
      if ((byte x =? 120) || (byte x =? 88))%Z then nondecimal_gt_zero 16 digits
      else if ((byte x =? 111) || (byte x =? 79))%Z then nondecimal_gt_zero 8 digits
      else if ((byte x =? 98) || (byte x =? 66))%Z then nondecimal_gt_zero 2 digits
      else decimal_gt_zero (skip_blank s)
  | String "+"%char r => decimal_gt_zero r
  | String "-"%char r => false
  | t => decimal_gt_zero t
  end.

(** [String(v)]. *)
Fixpoint js_to_string (v : jsval) : string :=
  match v with
  | JUndefined => "undefined"
  | JNull => "null"
  | JBool true => "true"
  | JBool false => "false"
  | JNum repr => repr
  | JStr s => s
  | JArr items =>
      let fix join (l : list jsval) : string :=
        match l with
        | [] => ""
        | x :: rest =>
            match x with
            | JUndefined => ""
            | JNull => ""
            | _ => js_to_string x
            end ++
            match rest with
            | [] => ""
            | _ => "," ++ join rest
            end
        end in
      join items
  | JObj _ => "[object Object]"
  end.

(** [v > 0]. *)
Definition js_gt_zero (v : jsval) : bool :=
  match v with
  | JUndefined => false
  | JNull => false
  | JBool b => b
  | JNum repr => string_gt_zero repr
  | JStr s => string_gt_zero s
  | JArr _ => string_gt_zero (js_to_string v)
  | JObj _ => string_gt_zero (js_to_string v)
  end.

(** [null] and [undefined], the values whose properties cannot be read. *)
Definition nullish (v : jsval) : bool :=
  match v with
  | JUndefined => true
  | JNull => true
  | _ => false
  end.

(** ** The remote party, as seen through axios *)

Definition header_list : Type := list (string * string).

(** One outbound request. *)
Inductive call : Type :=
| HttpGet (url : string) (headers : header_list)
| HttpPost (url : string) (body : jsval) (headers : header_list).

(** The object an axios promise resolves to; the code reads [data] only. *)
Record AxiosResponse : Type := { status : Z; data : jsval }.

(** An axios promise settles one way or the other. *)
Inductive outcome : Type :=
| Resolved (response : AxiosResponse)
| Rejected (error : jsval).

Inductive log_entry : Type :=
| console_log_entry (message : string) (arg : jsval)
| console_error_entry (message : string) (arg : option jsval).

(** ** What axios makes of an HTTP exchange *)

(** The body of an HTTP answer: a text that is JSON, given by the value it
    parses to, or a text that is not. *)
Inductive wire_body : Type :=
| ValidJson (v : jsval)
| NotJson (raw : string).

(** What comes back for a request: no answer at all, or a status line with a
    body. *)
Inductive wire_reply : Type :=
| NetworkFailure (error : jsval)
| HttpReply (code : Z) (answer : wire_body).

(** [response.data] with the default settings, which none of the calls of
    the repository changes: the text is parsed as JSON, and kept as it came
    when it does not parse. *)
Definition parsed_or_raw (b : wire_body) : jsval :=
  match b with
  | ValidJson v => v
  | NotJson raw => JStr raw
  end.

(** The promise with the default settings: it resolves for a status from 200
    to 299 and is rejected otherwise, with an error that carries the
    response. *)
Definition axios_default (r : wire_reply) : outcome :=
  match r with
  | NetworkFailure error => Rejected error
  | HttpReply code answer =>
      if ((200 <=? code) && (code <? 300))%Z then
        Resolved {| status := code; data := parsed_or_raw answer |}
      else
        Rejected (JObj [("name", JStr "AxiosError");
                        ("response", JObj [("data", parsed_or_raw answer)])])
  end.

(** A remote party given by what travels on the wire, seen through axios. *)
Definition through_axios (V : Type) (wire : call -> V -> wire_reply * V)
  (c : call) (v : V) : outcome * V :=
  let (r, v') := wire c v in (axios_default r, v').

(** ** Programs *)

(** [U] is the type of the mutations a function can apply to the object it
    holds: method calls on [res] for a route, state setters for a view. *)
Inductive prog (U A : Type) : Type :=
| Ret (a : A)
| Throw (e : jsval)
| Await (c : call) (k : outcome -> prog U A)
| Console (l : log_entry) (k : prog U A)
| Update (u : U) (k : prog U A).

Arguments Ret {U A} a.
Arguments Throw {U A} e.
Arguments Await {U A} c k.
Arguments Console {U A} l k.
Arguments Update {U A} u k.

Fixpoint prog_bind {U A B} (p : prog U A) (f : A -> prog U B) : prog U B :=
  match p with
  | Ret a => f a
  | Throw e => Throw e
  | Await c k => Await c (fun o => prog_bind (k o) f)
  | Console l k => Console l (prog_bind k f)
  | Update u k => Update u (prog_bind k f)
  end.

(** [try { p } catch (error) { h error }]. *)
Fixpoint try_catch {U A} (p : prog U A) (h : jsval -> prog U A) : prog U A :=
  match p with
  | Ret a => Ret a
  | Throw e => h e
  | Await c k => Await c (fun o => try_catch (k o) h)
  | Console l k => Console l (try_catch k h)
  | Update u k => Update u (try_catch k h)
  end.

#[export] Instance Monad_prog {U} : Monad (prog U) :=
  { ret := fun _ a => Ret a;
    bind := fun _ _ p f => prog_bind p f }.

#[export] Instance MonadExc_prog {U} : MonadExc jsval (prog U) :=
  { raise := fun _ e => Throw e;
    catch := fun _ p h => try_catch p h }.

(** [await axios.get(url, { headers })]: a rejected promise is thrown at the
    [await]. *)
Definition settle {U} (c : call) : prog U AxiosResponse :=
  Await c (fun o => match o with
                    | Resolved response => Ret response
                    | Rejected error => Throw error
                    end).

Definition axios_get {U} (url : string) (headers : header_list) : prog U AxiosResponse :=
  settle (HttpGet url headers).

Definition axios_post {U} (url : string) (body : jsval) (headers : header_list)
  : prog U AxiosResponse :=
  settle (HttpPost url body headers).

Definition console_log {U} (message : string) (arg : jsval) : prog U unit :=
  Console (console_log_entry message arg) (Ret tt).

Definition console_error {U} (message : string) (arg : option jsval) : prog U unit :=
  Console (console_error_entry message arg) (Ret tt).

Definition update {U} (u : U) : prog U unit :=
  Update u (Ret tt).

(** A property read inside a program: the TypeError is thrown. *)
Definition read {U} (v : jsval) (key : string) : prog U jsval :=
  match js_get v key with
  | inl e => Throw e
  | inr x => Ret x
  end.

(** ** Running a program *)

Section Run.

(** The remote party: some state and its answer to each request. *)
Variable V : Type.
Variable remote : call -> V -> outcome * V.

(** The object the program mutates and the meaning of a mutation. *)
Variables S U : Type.
Variable apply : U -> S -> S.

Record world : Type :=
  { peer : V;                 (* state of the remote party *)
    sent : list call;         (* outbound requests, oldest first *)
    console : list log_entry; (* console lines, oldest first *)
    target : S }.             (* the object being mutated *)

(** The world once request [c] has been sent and the remote party has
    moved to [v]. *)
Definition answered (c : call) (v : V) (w : world) : world :=
  {| peer := v; sent := sent w ++ [c]; console := console w; target := target w |}.

(** The result is the returned value, or the exception that escaped. *)
Fixpoint run {A} (p : prog U A) (w : world) : (jsval + A) * world :=
  match p with
  | Ret a => (inr a, w)
  | Throw e => (inl e, w)
  | Await c k =>
      let (o, v') := remote c (peer w) in
      run (k o) (answered c v' w)
  | Console l k =>
      run k {| peer := peer w; sent := sent w;
               console := console w ++ [l]; target := target w |}
  | Update u k =>
      run k {| peer := peer w; sent := sent w;
               console := console w; target := apply u (target w) |}
  end.

End Run.

Arguments peer {V S} w.
Arguments sent {V S} w.
Arguments console {V S} w.
Arguments target {V S} w.
Arguments answered {V S} c v w.

(** ** The Next.js request and response objects *)

(** A query parameter is a string, or an array of strings when the name is
    repeated in the URL; a parameter that is absent reads as [undefined]. *)
Inductive query_value : Type :=
| QString (s : string)
| QArray (items : list string).

Record NextApiRequest : Type :=
  { method : string;
    query : list (string * query_value);
    body : jsval }.

Fixpoint query_get (q : list (string * query_value)) (name : string)
  : option query_value :=
  match q with
  | [] => None
  | (k, v) :: rest => if String.eqb k name then Some v else query_get rest name
  end.

(** Truthiness of [req.query.x]: [undefined] and [''] are falsy, an array is
    an object and so truthy. *)
Definition truthy_query (v : option query_value) : bool :=
  match v with
  | None => false
  | Some (QString s) => truthy_string s
  | Some (QArray _) => true
  end.

(** [`${v}`] inside a template literal. *)
Definition template_query (v : option query_value) : string :=
  match v with
  | None => "undefined"
  | Some (QString s) => s
  | Some (QArray items) => String.concat "," items
  end.

(** [process.env.NAME] is a string, or [undefined] when the variable is not
    set. *)
Definition template_env (v : option string) : string :=
  match v with
  | None => "undefined"
  | Some s => s
  end.

Record Env : Type :=
  { ALLOY_API_KEY : option string;
    ALLOY_USER_ID : option string }.

Inductive payload : Type :=
| JsonBody (v : jsval)
| TextBody (chunk : string).

(** What the routes can observe and set on [res].  [responseHeaders] holds
    the headers a route sets with [setHeader]; the content type that
    [res.json] adds by itself is left out. *)
Record ServerResponse : Type :=
  { statusCode : Z;
    responseHeaders : list (string * list string);
    sentBody : option payload }.

(** A fresh [res]: status 200, nothing sent. *)
Definition fresh_res : ServerResponse :=
  {| statusCode := 200; responseHeaders := []; sentBody := None |}.

(** The methods of [res] the routes call. *)
Inductive res_call : Type :=
| res_status (code : Z)
| res_json (v : jsval)
| res_setHeader (name : string) (value : list string)
| res_end (chunk : string).

Fixpoint set_header (hs : list (string * list string)) (name : string)
  (value : list string) : list (string * list string) :=
  match hs with
  | [] => [(name, value)]
  | (k, v) :: rest =>
      if String.eqb k name then (name, value) :: rest
      else (k, v) :: set_header rest name value
  end.

Fixpoint get_header (hs : list (string * list string)) (name : string)
  : option (list string) :=
  match hs with
  | [] => None
  | (k, v) :: rest => if String.eqb k name then Some v else get_header rest name
  end.

Definition apply_res (c : res_call) (res : ServerResponse) : ServerResponse :=
  match c with
  | res_status code =>
      {| statusCode := code; responseHeaders := responseHeaders res;
         sentBody := sentBody res |}
  | res_json v =>
      {| statusCode := statusCode res; responseHeaders := responseHeaders res;
         sentBody := Some (JsonBody v) |}
  | res_setHeader name value =>
      {| statusCode := statusCode res;
         responseHeaders := set_header (responseHeaders res) name value;
         sentBody := sentBody res |}
  | res_end chunk =>
      {| statusCode := statusCode res; responseHeaders := responseHeaders res;
         sentBody := Some (TextBody chunk) |}
  end.

(** A route is a program that mutates [res]. *)
Definition route : Type := prog res_call unit.

(** ** pages/api/contacts.js *)

Module Contacts.

Definition vendor_url (connectionId : option query_value) : string :=
  "https://embedded.runalloy.com/2023-12/one/crm/contacts?connectionId="
  ++ template_query connectionId.

Definition get_headers (env : Env) : header_list :=
  [("Authorization", "bearer " ++ template_env (ALLOY_API_KEY env));
   ("accept", "application/json")].

Definition post_headers (env : Env) : header_list :=
  [("Authorization", "bearer " ++ template_env (ALLOY_API_KEY env));
   ("accept", "application/json");
   ("content-type", "application/json")].

Definition handler (env : Env) (req : NextApiRequest) : route :=
  let method := method req in
  let connectionId := query_get (query req) "connectionId" in
  if negb (truthy_query connectionId) then
    update (res_status 400) ;;
    update (res_json (JObj [("error", JStr "ConnectionId is required")]))
  else if String.eqb method "GET" then
    catch
      (response <- axios_get (vendor_url connectionId) (get_headers env) ;;
       update (res_json (data response)))
      (fun error =>
         console_error "Error fetching contacts:" (Some error) ;;
         update (res_status 500) ;;
         update (res_json (JObj [("error", JStr "Error fetching contacts")])))
  else if String.eqb method "POST" then
    catch
      (response <- axios_post (vendor_url connectionId) (body req) (post_headers env) ;;
       update (res_json (data response)))
      (fun error =>
         console_error "Error creating contact:" (Some error) ;;
         update (res_status 500) ;;
         update (res_json (JObj [("error", JStr "Error creating contact")])))
  else
    update (res_setHeader "Allow" ["GET"; "POST"]) ;;
    update (res_status 405) ;;
    update (res_end ("Method " ++ method ++ " Not Allowed")).

End Contacts.

(** ** pages/api/get-jwt-token.js *)

Module GetJwtToken.

Definition token_url (env : Env) : string :=
  "https://embedded.runalloy.com/2023-12/users/"
  ++ template_env (ALLOY_USER_ID env) ++ "/token".

Definition token_headers (env : Env) : header_list :=
  [("Authorization", "Bearer " ++ template_env (ALLOY_API_KEY env));
   ("accept", "application/json")].

Definition handler (env : Env) (req : NextApiRequest) : route :=
  catch
    (response <- axios_get (token_url env) (token_headers env) ;;
     update (res_status 200) ;;
     token <- read (data response) "token" ;;
     update (res_json (JObj [("token", token)])))
    (fun error =>
       console_error "Error generating JWT token:" (Some error) ;;
       update (res_status 500) ;;
       update (res_json (JObj [("error", JStr "Error generating JWT token")]))).

End GetJwtToken.

(** ** components/CreateContact.js *)

Module CreateContact.

(** The two [useState] cells. *)
Record State : Type := { firstName : string; lastName : string }.

Definition initial : State := {| firstName := ""; lastName := "" |}.

(** What [handleSubmit] can mutate: the submit event and the two cells. *)
Inductive action : Type :=
| preventDefault
| setFirstName (value : string)
| setLastName (value : string).

Record Submission : Type := { form : State; defaultPrevented : bool }.

Definition apply_action (a : action) (s : Submission) : Submission :=
  match a with
  | preventDefault =>
      {| form := form s; defaultPrevented := true |}
  | setFirstName value =>
      {| form := {| firstName := value; lastName := lastName (form s) |};
         defaultPrevented := defaultPrevented s |}
  | setLastName value =>
      {| form := {| firstName := firstName (form s); lastName := value |};
         defaultPrevented := defaultPrevented s |}
  end.

Definition gateway_url (connectionId : string) : string :=
  "/api/contacts?connectionId=" ++ connectionId.

(** [rendered] holds the values of [firstName] and [lastName] that the
    closure captured when the component was rendered. *)
Definition handleSubmit (connectionId : string) (rendered : State)
  : prog action unit :=
  update preventDefault ;;
  if truthy_string connectionId then
    catch
      (response <- axios_post (gateway_url connectionId)
                     (JObj [("firstName", JStr (firstName rendered));
                            ("lastName", JStr (lastName rendered))]) [] ;;
       console_log "Contact added:" (data response) ;;
       update (setFirstName "") ;;
       update (setLastName ""))
      (fun error => console_error "Error adding contact:" (Some error))
  else
    console_error "No connection ID. Please connect to Salesforce first." None.

End CreateContact.

(** ** components/ContactList.js *)

Module ContactList.

Record State : Type := { contacts : jsval; isLoading : bool }.

Definition initial : State := {| contacts := JArr []; isLoading := false |}.

Inductive action : Type :=
| setContacts (value : jsval)
| setIsLoading (value : bool).

Definition apply_action (a : action) (s : State) : State :=
  match a with
  | setContacts value => {| contacts := value; isLoading := isLoading s |}
  | setIsLoading value => {| contacts := contacts s; isLoading := value |}
  end.

Definition gateway_url (connectionId : string) : string :=
  "/api/contacts?connectionId=" ++ connectionId.

Definition fetchContacts (connectionId : string) : prog action unit :=
  if truthy_string connectionId then
    update (setIsLoading true) ;;
    catch
      (response <- axios_get (gateway_url connectionId) [] ;;
       value <- read (data response) "contacts" ;;
       update (setContacts value) ;;
       update (setIsLoading false))
      (fun error =>
         console_error "Error fetching contacts:" (Some error) ;;
         update (setIsLoading false))
  else
    ret tt.

(** What the component returns. *)
Inductive panel : Type :=
| ContactItems (items : list jsval)   (* the <ul> with one <li> per contact *)
| NoContactsFound.                    (* "No contacts found. Please try refreshing." *)

Inductive view : Type :=
| Step1Prompt        (* "Please complete Step 1 to connect an app and view contacts." *)
| LoadingContacts    (* "Loading contacts..." *)
| ContactsPanel (shown : panel) (refreshDisabled : bool).

(** [None]: the component throws a TypeError instead of returning a view.
    [contacts.length] cannot be read from [undefined] and [null]; when
    [contacts.length > 0] holds, [contacts.map] is a function for an array
    only, and the function given to it reads [contact.id], which cannot be
    read from an item that is [null] or [undefined].  A boolean and a number
    have no [length], a string has its own, an object the property of that
    name if it has one. *)
Definition render (connectionId : string) (s : State) : option view :=
  if negb (truthy_string connectionId) then Some Step1Prompt
  else if isLoading s then Some LoadingContacts
  else
    let refreshDisabled := negb (truthy_string connectionId) || isLoading s in
    match contacts s with
    | JArr [] => Some (ContactsPanel NoContactsFound refreshDisabled)
    | JArr items =>
        if existsb nullish items then None
        else Some (ContactsPanel (ContactItems items) refreshDisabled)
    | JUndefined => None
    | JNull => None
    | JBool _ => Some (ContactsPanel NoContactsFound refreshDisabled)
    | JNum _ => Some (ContactsPanel NoContactsFound refreshDisabled)
    | JStr text =>
        if truthy_string text then None
        else Some (ContactsPanel NoContactsFound refreshDisabled)
    | JObj fields =>
        if js_gt_zero (own_property fields "length") then None
        else Some (ContactsPanel NoContactsFound refreshDisabled)
    end.

End ContactList.

(** ** The page component [Home] and the views it mounts *)

Module Home.

(** [connectionId] is the page's [useState('')] cell.  [listing] is the
    state of the ContactList instance while one is mounted. *)
Record Page : Type :=
  { connectionId : string;
    listing : option ContactList.State }.

Definition initial : Page := {| connectionId := ""; listing := None |}.

(** The three sections of the page.  [connectionId && <X connectionId=.. />]
    is the empty string when [connectionId] is empty, and React renders
    nothing for it. *)
Record Sections : Type :=
  { step1 : unit;                       (* <ConnectApp />, always there *)
    step2 : option string;              (* props of <ContactList />   *)
    step3 : option string }.            (* props of <CreateContact /> *)

Definition render (p : Page) : Sections :=
  {| step1 := tt;
     step2 := if truthy_string (connectionId p) then Some (connectionId p) else None;
     step3 := if truthy_string (connectionId p) then Some (connectionId p) else None |}.

(** What the second section shows: nothing when the Listing view is not
    mounted or its render throws. *)
Definition listing_view (p : Page) : option ContactList.view :=
  match step2 (render p), listing p with
  | Some id, Some s => ContactList.render id s
  | _, _ => None
  end.

(** A setter of the mounted ContactList instance, seen from the page. *)
Definition in_listing (a : ContactList.action) (p : Page) : Page :=
  {| connectionId := connectionId p;
     listing := option_map (ContactList.apply_action a) (listing p) |}.

Inductive event : Type :=
| ConnectionEstablished (id : string)  (* ConnectApp calls onConnectionEstablished(id) *)
| RefreshClicked.                      (* a click on "Refresh Contacts" *)

(** The events that leave the page without a connection identifier. *)
Definition keeps_unlinked (e : event) : bool :=
  match e with
  | ConnectionEstablished id => negb (truthy_string id)
  | RefreshClicked => true
  end.

Section Steps.

Variable V : Type.
Variable remote : call -> V -> outcome * V.

Definition with_page (w : world V Page) (p : Page) : world V Page :=
  {| peer := peer w; sent := sent w; console := console w; target := p |}.

(** [handleConnectionEstablished] sets the cell; the page renders again;
    ContactList is mounted, kept or removed by [render]; its effect runs
    [fetchContacts] after mounting and whenever [connectionId] changed. *)
Definition handleConnectionEstablished (id : string) (w : world V Page)
  : world V Page :=
  let p := target w in
  if String.eqb id (connectionId p) then w
  else if truthy_string id then
    let s := match listing p with
             | Some s => s
             | None => ContactList.initial
             end in
    snd (run remote in_listing (ContactList.fetchContacts id)
           (with_page w {| connectionId := id; listing := Some s |}))
  else
    with_page w {| connectionId := id; listing := None |}.

(** The button exists, and is enabled, only in a panel that says so. *)
Definition refresh (w : world V Page) : world V Page :=
  match listing_view (target w) with
  | Some (ContactList.ContactsPanel _ false) =>
      snd (run remote in_listing
             (ContactList.fetchContacts (connectionId (target w))) w)
  | _ => w
  end.

Definition step (w : world V Page) (e : event) : world V Page :=
  match e with
  | ConnectionEstablished id => handleConnectionEstablished id w
  | RefreshClicked => refresh w
  end.

Definition steps (w : world V Page) (es : list event) : world V Page :=
  fold_left step es w.

End Steps.

End Home.

(** ** Serving requests *)

Section Serve.

Variable V : Type.
Variable remote : call -> V -> outcome * V.

(** A world in which the route under study has been handed a fresh [res]. *)
Definition arrival (v : V) : world V ServerResponse :=
  {| peer := v; sent := []; console := []; target := fresh_res |}.

(** The world a route leaves behind. *)
Definition respond (h : route) (w : world V ServerResponse)
  : world V ServerResponse :=
  snd (run remote apply_res h w).

(** One request served: the response and the remote party afterwards. *)
Definition serve (h : route) (v : V) : ServerResponse * V :=
  let w := respond h (arrival v) in
  (target w, peer w).

(** The same route served [n] times in a row. *)
Fixpoint serve_repeatedly (h : route) (n : nat) (v : V) : list ServerResponse :=
  match n with
  | O => []
  | S n' => let (r, v') := serve h v in r :: serve_repeatedly h n' v'
  end.

End Serve.

(** ** Remote parties and requests used in the examples *)

Module Fixtures.

Definition env : Env :=
  {| ALLOY_API_KEY := Some "secret-key"; ALLOY_USER_ID := Some "user-1" |}.

Definition ada : jsval :=
  JObj [("firstName", JStr "Ada"); ("lastName", JStr "Lovelace")].

(** A vendor that stores contacts: a read lists them, a write appends the
    posted record and echoes it; the token endpoint is told from the
    contacts endpoint by the end of the URL. *)
Definition vendor (c : call) (stored : list jsval) : outcome * list jsval :=
  match c with
  | HttpGet url _ =>
      if String.eqb (String.substring (String.length url - 6) 6 url) "/token"
      then (Resolved {| status := 200; data := JObj [("token", JStr "jwt-abc")] |}, stored)
      else (Resolved {| status := 200; data := JObj [("contacts", JArr stored)] |}, stored)
  | HttpPost _ record _ =>
      (Resolved {| status := 200; data := record |}, (stored ++ [record])%list)
  end.

Definition refused : jsval :=
  JObj [("code", JStr "ECONNREFUSED"); ("message", JStr "connect ECONNREFUSED")].

(** A vendor that cannot be reached: every promise is rejected. *)
Definition unreachable (c : call) (v : unit) : outcome * unit :=
  (Rejected refused, v).

(** A vendor that answers 200 with an empty JSON object. *)
Definition tokenless (c : call) (v : unit) : outcome * unit :=
  (Resolved {| status := 200; data := JObj [] |}, v).

(** A vendor that answers 200 with the JSON text [null]. *)
Definition null_body (c : call) (v : unit) : outcome * unit :=
  (Resolved {| status := 200; data := JNull |}, v).

Definition typed : CreateContact.State :=
  {| CreateContact.firstName := "Ada"; CreateContact.lastName := "Lovelace" |}.

Definition submitting : CreateContact.Submission :=
  {| CreateContact.form := typed; CreateContact.defaultPrevented := false |}.

Definition shown : ContactList.State :=
  {| ContactList.contacts := JArr [ada]; ContactList.isLoading := false |}.

Definition browser (V S : Type) (v : V) (s : S) : world V S :=
  {| peer := v; sent := []; console := []; target := s |}.

Definition request (verb : string) (q : list (string * query_value)) (b : jsval)
  : NextApiRequest :=
  {| method := verb; query := q; body := b |}.

Definition linked : list (string * query_value) :=
  [("connectionId", QString "conn-42")].

Definition delete_unlinked : NextApiRequest :=
  request "DELETE" [("connectionId", QString "")] JUndefined.

Definition delete_bare : NextApiRequest := request "DELETE" [] JUndefined.

Definition delete_linked : NextApiRequest := request "DELETE" linked JUndefined.

Definition get_linked : NextApiRequest := request "GET" linked JUndefined.

Definition post_linked : NextApiRequest := request "POST" linked ada.

End Fixtures.

(** ** components/ConnectApp.js *)

(** Truthiness of a value.  With numbers carried by their canonical
    rendering, the falsy numbers are ["0"] (which is also how [-0] renders)
    and ["NaN"]. *)
Definition js_truthy (v : jsval) : bool :=
  match v with
  | JUndefined => false
  | JNull => false
  | JBool b => b
  | JNum repr => negb (String.eqb repr "0" || String.eqb repr "NaN")
  | JStr s => truthy_string s
  | JArr _ => true
  | JObj _ => true
  end.

Module ConnectApp.

(** The calls the component makes on its surroundings: the vendor's SDK
    ([window.Alloy]), the browser's storage and the callback given by the
    page. *)
Inductive action : Type :=
| Alloy_setToken (token : jsval)
| Alloy_authenticate (category : string)
| localStorage_setItem (key : string) (value : jsval)
| onConnectionEstablished (id : jsval).

(** The target of these programs is the list of the calls made so far,
    oldest first. *)
Definition apply_action (a : action) (made : list action) : list action :=
  made ++ [a].

(** [sdk] tells whether [window.Alloy] is there when the token has arrived.
    [authenticate] is handed [callback] below, which the SDK calls later. *)
Definition fetchTokenAndAuthenticate (sdk : bool) : prog action unit :=
  catch
    (response <- axios_get "/api/get-jwt-token" [] ;;
     if sdk then
       token <- read (data response) "token" ;;
       update (Alloy_setToken token) ;;
       update (Alloy_authenticate "crm")
     else
       console_error "Alloy SDK not found" None)
    (fun error => console_error "Error fetching JWT token:" (Some error)).

(** The [callback] property of the object given to [authenticate]. *)
Definition callback (data : jsval) : prog action unit :=
  success <- read data "success" ;;
  if js_truthy success then
    stored <- read data "connectionId" ;;
    update (localStorage_setItem "connectionId" stored) ;;
    announced <- read data "connectionId" ;;
    update (onConnectionEstablished announced)
  else
    ret tt.

End ConnectApp.

(** ** The browser's requests, carried to the routes *)

(** Between a view and a route stand axios in the browser and Next.js on the
    server, neither of which is code of the repository: [deliver] is the
    request object Next.js builds from a browser request, [receive] is how
    the promise settles for the response the route produced.  Whatever they
    are, a browser request is answered by serving the route it reaches
    against the vendor. *)
Section Gateway.

Variable V : Type.
Variable vendor : call -> V -> outcome * V.
Variable deliver : call -> NextApiRequest.
Variable receive : ServerResponse -> outcome.
Variable reached : NextApiRequest -> route.

Definition through_gateway (c : call) (v : V) : outcome * V :=
  let (res, v') := serve vendor (reached (deliver c)) v in
  (receive res, v').

End Gateway.

(** ** More remote parties and requests used in the examples *)

Module Scenes.

Definition unset : Env := {| ALLOY_API_KEY := None; ALLOY_USER_ID := None |}.

(** [?connectionId=&connectionId=] *)
Definition get_twice_empty : NextApiRequest :=
  {| method := "GET"; query := [("connectionId", QArray [""; ""])]; body := JUndefined |}.

Definition grace : jsval :=
  JObj [("firstName", JStr "Grace"); ("lastName", JStr "Hopper")].


(** A gateway that answers 200 with two contacts. *)
Definition two_contacts (c : call) (v : unit) : outcome * unit :=
  (Resolved {| status := 200;
               data := JObj [("contacts", JArr [Fixtures.ada; grace])] |}, v).


(** Behind the vendor's address stands a proxy that answers 200 with a page
    of HTML. *)
Definition html_page : string := "<html>Bad gateway</html>".

Definition garbled (c : call) (v : unit) : wire_reply * unit :=
  (HttpReply 200 (NotJson html_page), v).

(** The same page under the status 502. *)
Definition bad_gateway (c : call) (v : unit) : wire_reply * unit :=
  (HttpReply 502 (NotJson html_page), v).

(** No answer at all. *)
Definition offline (c : call) (v : unit) : wire_reply * unit :=
  (NetworkFailure Fixtures.refused, v).



Definition linked_data : jsval :=
  JObj [("success", JBool true); ("connectionId", JStr "conn-42")].

Definition cancelled_data : jsval :=
  JObj [("success", JBool false)].

(** The request object for the three URLs the views use, for an identifier
    without reserved characters. *)
Definition deliver (c : call) : NextApiRequest :=
  match c with
  | HttpGet url _ =>
      if String.eqb url "/api/get-jwt-token"
      then {| method := "GET"; query := []; body := JUndefined |}
      else {| method := "GET";
              query := [("connectionId",
                         QString (String.substring 27 (String.length url - 27) url))];
              body := JUndefined |}
  | HttpPost url sent_body _ =>
      {| method := "POST";
         query := [("connectionId",
                    QString (String.substring 27 (String.length url - 27) url))];
         body := sent_body |}
  end.

(** The promise resolves with the JSON body for a status from 200 to 299
    and is rejected otherwise. *)
Definition receive (res : ServerResponse) : outcome :=
  if ((200 <=? statusCode res) && (statusCode res <? 300))%Z then
    match sentBody res with
    | Some (JsonBody v) => Resolved {| status := statusCode res; data := v |}
    | Some (TextBody chunk) => Resolved {| status := statusCode res; data := JStr chunk |}
    | None => Resolved {| status := statusCode res; data := JStr "" |}
    end
  else
    Rejected (JObj [("name", JStr "AxiosError")]).

End Scenes.

(** ** Facts about the building blocks *)

Lemma get_set_header hs name value :
  get_header (set_header hs name value) name = Some value.
Proof.
  induction hs as [|[k v] rest IH]; simpl.
  - now rewrite String.eqb_refl.
  - destruct (String.eqb k name) eqn:E; simpl.
    + now rewrite String.eqb_refl.
    + now rewrite E.
Qed.

(** Numbers read from text, as [Number] reads them. *)
Example string_gt_zero_samples :
  map string_gt_zero
    ["5"; ""; " 12 "; "0x10"; "0x"; "-1"; "1e-400"; "5e-324"; "2.4e-324";
     "abc"; "Infinity"; "1 2"; ".5"; "."; "1e+21"] =
    [true; false; true; true; false; false; false; true; false;
     false; true; false; true; false; true].
Proof. vm_compute. reflexivity. Qed.

(** [[5] > 0] holds, [[5, 6] > 0] and [[] > 0] and [{} > 0] do not. *)
Example js_gt_zero_samples :
  map js_gt_zero
    [JArr [JNum "5"]; JArr [JNum "5"; JNum "6"]; JArr []; JObj [];
     JBool true; JNull; JUndefined; JNum "0"; JNum "3"; JStr "7"] =
    [true; false; false; false; true; false; false; false; true; true].
Proof. vm_compute. reflexivity. Qed.

Lemma falsy_query_cases (v : option query_value) :
  v = None \/ v = Some (QString "") -> truthy_query v = false.
Proof. intros [-> | ->]; reflexivity. Qed.

Section Awaiting.

Variable V : Type.
Variable remote : call -> V -> outcome * V.
Variables S U : Type.
Variable apply : U -> S -> S.

Lemma run_try_resolved A (c : call) (k : AxiosResponse -> prog U A)
  (h : jsval -> prog U A) (w : world V S) response v :
  remote c (peer w) = (Resolved response, v) ->
  run remote apply (try_catch (prog_bind (settle c) k) h) w =
  run remote apply (try_catch (k response) h) (answered c v w).
Proof. intros E. simpl. rewrite E. reflexivity. Qed.

Lemma run_try_rejected A (c : call) (k : AxiosResponse -> prog U A)
  (h : jsval -> prog U A) (w : world V S) error v :
  remote c (peer w) = (Rejected error, v) ->
  run remote apply (try_catch (prog_bind (settle c) k) h) w =
  run remote apply (h error) (answered c v w).
Proof. intros E. simpl. rewrite E. reflexivity. Qed.

End Awaiting.

(** Expose the [try] block of a route or of a view, then step over its
    [await] with the vendor's answer [E]. *)
Ltac open_try :=
  unfold catch, bind, MonadExc_prog, Monad_prog, axios_get, axios_post.

Ltac await_with E :=
  first [ erewrite run_try_resolved by exact E
        | erewrite run_try_rejected by exact E ].

(** ** The Contact Gateway *)

(** C1.  A request to /api/contacts whose [connectionId] query parameter is
    absent or is the empty string is answered 400 with the body
    [{error: 'ConnectionId is required'}], whatever the HTTP method, and the
    route sends nothing to the vendor: the list of outbound requests and the
    vendor's state are what they were. *)
Theorem contacts_without_connectionId_is_400
  (V : Type) (remote : call -> V -> outcome * V)
  (env : Env) (req : NextApiRequest) (w : world V ServerResponse) :
  query_get (query req) "connectionId" = None \/
  query_get (query req) "connectionId" = Some (QString "") ->
  fst (run remote apply_res (Contacts.handler env req) w) = inr tt /\
  statusCode (target (respond remote (Contacts.handler env req) w)) = 400%Z /\
  sentBody (target (respond remote (Contacts.handler env req) w)) =
    Some (JsonBody (JObj [("error", JStr "ConnectionId is required")])) /\
  sent (respond remote (Contacts.handler env req) w) = sent w /\
  peer (respond remote (Contacts.handler env req) w) = peer w.
Proof.
  intros H. apply falsy_query_cases in H.
  unfold respond, Contacts.handler. rewrite H. simpl. repeat split.
Qed.

Lemma contacts_without_connectionId_is_400_witness :
  statusCode (target (respond Fixtures.vendor
                        (Contacts.handler Fixtures.env Fixtures.delete_unlinked)
                        (arrival []))) = 400%Z /\
  sent (respond Fixtures.vendor
          (Contacts.handler Fixtures.env Fixtures.delete_unlinked)
          (arrival [])) = [].
Proof.
  destruct (@contacts_without_connectionId_is_400 _ Fixtures.vendor Fixtures.env
              Fixtures.delete_unlinked (arrival []) (or_intror eq_refl))
    as (_ & Hs & _ & Hc & _).
  split; [exact Hs | exact Hc].
Defined.

(** C2.  With a truthy [connectionId], a GET sends one read request to the
    vendor and, when the vendor's answer arrives, passes [response.data] to
    [res.json] as it is; a POST sends the request body, as it is, to the
    vendor's write endpoint and passes the [response.data] of the answer to
    [res.json] as it is.  The status code is left at its default. *)
Theorem contacts_pass_through
  (V : Type) (remote : call -> V -> outcome * V)
  (env : Env) (req : NextApiRequest) (w : world V ServerResponse)
  (response : AxiosResponse) (v : V) :
  truthy_query (query_get (query req) "connectionId") = true ->
  (method req = "GET" ->
   remote (HttpGet (Contacts.vendor_url (query_get (query req) "connectionId"))
             (Contacts.get_headers env)) (peer w) = (Resolved response, v) ->
   run remote apply_res (Contacts.handler env req) w =
   (inr tt,
    {| peer := v;
       sent := sent w ++
               [HttpGet (Contacts.vendor_url (query_get (query req) "connectionId"))
                  (Contacts.get_headers env)];
       console := console w;
       target := {| statusCode := statusCode (target w);
                    responseHeaders := responseHeaders (target w);
                    sentBody := Some (JsonBody (data response)) |} |}))
  /\
  (method req = "POST" ->
   remote (HttpPost (Contacts.vendor_url (query_get (query req) "connectionId"))
             (body req) (Contacts.post_headers env)) (peer w) = (Resolved response, v) ->
   run remote apply_res (Contacts.handler env req) w =
   (inr tt,
    {| peer := v;
       sent := sent w ++
               [HttpPost (Contacts.vendor_url (query_get (query req) "connectionId"))
                  (body req) (Contacts.post_headers env)];
       console := console w;
       target := {| statusCode := statusCode (target w);
                    responseHeaders := responseHeaders (target w);
                    sentBody := Some (JsonBody (data response)) |} |})).
Proof.
  intros Hid. unfold Contacts.handler. rewrite Hid. simpl negb. cbv iota.
  split; intros Hm E; rewrite Hm; simpl String.eqb; cbv iota;
    open_try; await_with E; reflexivity.
Qed.

Lemma contacts_pass_through_witness :
  sentBody (target (respond Fixtures.vendor
                      (Contacts.handler Fixtures.env Fixtures.get_linked)
                      (arrival [Fixtures.ada]))) =
    Some (JsonBody (JObj [("contacts", JArr [Fixtures.ada])])) /\
  sentBody (target (respond Fixtures.vendor
                      (Contacts.handler Fixtures.env Fixtures.post_linked)
                      (arrival []))) =
    Some (JsonBody Fixtures.ada).
Proof.
  split.
  - unfold respond.
    rewrite (proj1 (@contacts_pass_through _ Fixtures.vendor Fixtures.env
                      Fixtures.get_linked (arrival [Fixtures.ada])
                      {| status := 200; data := JObj [("contacts", JArr [Fixtures.ada])] |}
                      [Fixtures.ada] eq_refl) eq_refl eq_refl).
    reflexivity.
  - unfold respond.
    rewrite (proj2 (@contacts_pass_through _ Fixtures.vendor Fixtures.env
                      Fixtures.post_linked (arrival [])
                      {| status := 200; data := Fixtures.ada |}
                      [Fixtures.ada] eq_refl) eq_refl eq_refl).
    reflexivity.
Defined.

(** C3, as the code has it.  The check for [connectionId] comes before the
    [switch] on the method.  A request whose verb is neither GET nor POST is
    answered 405 with the header [Allow] set to GET and POST and the text
    "Method <verb> Not Allowed" when its [connectionId] is truthy, and nothing
    is sent to the vendor; when [connectionId] is absent or empty the answer
    is 400 and no [Allow] header is set. *)
Theorem contacts_other_verb_is_405_when_linked
  (V : Type) (remote : call -> V -> outcome * V)
  (env : Env) (req : NextApiRequest) (w : world V ServerResponse) :
  method req <> "GET" ->
  method req <> "POST" ->
  (truthy_query (query_get (query req) "connectionId") = true ->
   run remote apply_res (Contacts.handler env req) w =
   (inr tt,
    {| peer := peer w;
       sent := sent w;
       console := console w;
       target := {| statusCode := 405;
                    responseHeaders :=
                      set_header (responseHeaders (target w)) "Allow" ["GET"; "POST"];
                    sentBody :=
                      Some (TextBody ("Method " ++ method req ++ " Not Allowed")) |} |})
   /\
   get_header (responseHeaders (target (respond remote (Contacts.handler env req) w)))
     "Allow" = Some ["GET"; "POST"])
  /\
  (truthy_query (query_get (query req) "connectionId") = false ->
   statusCode (target (respond remote (Contacts.handler env req) w)) = 400%Z /\
   responseHeaders (target (respond remote (Contacts.handler env req) w)) =
     responseHeaders (target w)).
Proof.
  intros Hget Hpost.
  apply String.eqb_neq in Hget. apply String.eqb_neq in Hpost.
  split; intros Hid; unfold respond, Contacts.handler; rewrite Hid; simpl negb; cbv iota.
  - rewrite Hget, Hpost. simpl. split; [reflexivity | apply get_set_header].
  - simpl. split; reflexivity.
Qed.

Lemma contacts_other_verb_is_405_when_linked_witness :
  statusCode (target (respond Fixtures.vendor
                        (Contacts.handler Fixtures.env Fixtures.delete_linked)
                        (arrival []))) = 405%Z /\
  get_header (responseHeaders
                (target (respond Fixtures.vendor
                           (Contacts.handler Fixtures.env Fixtures.delete_linked)
                           (arrival [])))) "Allow" = Some ["GET"; "POST"] /\
  statusCode (target (respond Fixtures.vendor
                        (Contacts.handler Fixtures.env Fixtures.delete_bare)
                        (arrival []))) = 400%Z.
Proof.
  assert (Hget : "DELETE" <> "GET") by discriminate.
  assert (Hpost : "DELETE" <> "POST") by discriminate.
  destruct (@contacts_other_verb_is_405_when_linked _ Fixtures.vendor Fixtures.env
              Fixtures.delete_linked (arrival []) Hget Hpost) as [Hlinked _].
  destruct (@contacts_other_verb_is_405_when_linked _ Fixtures.vendor Fixtures.env
              Fixtures.delete_bare (arrival []) Hget Hpost) as [_ Hbare].
  destruct (Hlinked eq_refl) as [Hrun Hallow].
  destruct (Hbare eq_refl) as [H400 _].
  split; [| split].
  - unfold respond. rewrite Hrun. reflexivity.
  - exact Hallow.
  - exact H400.
Defined.

(** C3, as the claim words it, fails: a DELETE that carries no [connectionId]
    has a verb other than GET and POST and is answered 400, without an
    [Allow] header. *)
Lemma contacts_other_verb_is_not_always_405 :
  ~ (forall (env : Env) (req : NextApiRequest) (w : world (list jsval) ServerResponse),
        method req <> "GET" ->
        method req <> "POST" ->
        statusCode (target (respond Fixtures.vendor (Contacts.handler env req) w))
          = 405%Z /\
        get_header
          (responseHeaders (target (respond Fixtures.vendor (Contacts.handler env req) w)))
          "Allow" = Some ["GET"; "POST"]).
Proof.
  intros H.
  destruct (H Fixtures.env Fixtures.delete_bare (arrival [])) as [Hs _];
    [discriminate | discriminate | ].
  vm_compute in Hs. discriminate.
Qed.

Lemma through_axios_settles
  (V : Type) (wire : call -> V -> wire_reply * V) (c : call) (v v' : V)
  (reply : wire_reply) :
  wire c v = (reply, v') ->
  through_axios wire c v = (axios_default reply, v').
Proof. intros E. unfold through_axios. rewrite E. reflexivity. Qed.

Lemma axios_default_success (code : Z) (answer : wire_body) :
  (200 <= code < 300)%Z ->
  axios_default (HttpReply code answer) =
  Resolved {| status := code; data := parsed_or_raw answer |}.
Proof.
  intros Hcode. unfold axios_default.
  replace ((200 <=? code) && (code <? 300))%Z with true; [reflexivity |].
  symmetry. apply andb_true_iff. rewrite Z.leb_le, Z.ltb_lt. exact Hcode.
Qed.

Lemma axios_default_failure (code : Z) (answer : wire_body) :
  (code < 200 \/ 300 <= code)%Z ->
  axios_default (HttpReply code answer) =
  Rejected (JObj [("name", JStr "AxiosError");
                  ("response", JObj [("data", parsed_or_raw answer)])]).
Proof.
  intros Hcode. unfold axios_default.
  replace ((200 <=? code) && (code <? 300))%Z with false; [reflexivity |].
  symmetry. apply andb_false_iff. rewrite Z.leb_gt, Z.ltb_ge. exact Hcode.
Qed.

(** C6, as the code has it.  With a truthy [connectionId], when the vendor
    call of a GET or of a POST is rejected, whatever the error object, the
    route logs the error on the server's console and answers 500 with the
    body [{error: 'Error fetching contacts'}] for a GET and
    [{error: 'Error creating contact'}] for a POST; the answer is built from
    constants only, so neither the API key nor the error occurs in it.  With
    the default settings of axios that is what happens when no answer
    arrives and when the answer has a status outside 200 to 299, whatever its
    body.  A body that is not JSON under a status from 200 to 299 is no
    failure for axios: the promise resolves with the text as it came, and the
    route hands that text to [res.json] without touching the status. *)
Theorem contacts_failures_as_axios_settles_them
  (V : Type) (env : Env) (req : NextApiRequest) (w : world V ServerResponse) (v : V) :
  truthy_query (query_get (query req) "connectionId") = true ->
  (method req = "GET" ->
   (forall (remote : call -> V -> outcome * V) (error : jsval),
       remote (HttpGet (Contacts.vendor_url (query_get (query req) "connectionId"))
                (Contacts.get_headers env)) (peer w) = (Rejected error, v) ->
       fst (run remote apply_res (Contacts.handler env req) w) = inr tt /\
       target (respond remote (Contacts.handler env req) w) =
         {| statusCode := 500;
            responseHeaders := responseHeaders (target w);
            sentBody := Some (JsonBody (JObj [("error", JStr "Error fetching contacts")])) |} /\
       console (respond remote (Contacts.handler env req) w) =
         (console w ++ [console_error_entry "Error fetching contacts:" (Some error)])%list) /\
   (forall (wire : call -> V -> wire_reply * V) (reply : wire_reply),
       wire (HttpGet (Contacts.vendor_url (query_get (query req) "connectionId"))
                (Contacts.get_headers env)) (peer w) = (reply, v) ->
       ((exists error, reply = NetworkFailure error) \/
        (exists code answer,
            reply = HttpReply code answer /\ (code < 200 \/ 300 <= code)%Z) ->
        target (respond (through_axios wire) (Contacts.handler env req) w) =
          {| statusCode := 500;
             responseHeaders := responseHeaders (target w);
             sentBody := Some (JsonBody (JObj [("error", JStr "Error fetching contacts")])) |}) /\
       (forall code raw,
           reply = HttpReply code (NotJson raw) ->
           (200 <= code < 300)%Z ->
           target (respond (through_axios wire) (Contacts.handler env req) w) =
             {| statusCode := statusCode (target w);
                responseHeaders := responseHeaders (target w);
                sentBody := Some (JsonBody (JStr raw)) |})))
  /\
  (method req = "POST" ->
   (forall (remote : call -> V -> outcome * V) (error : jsval),
       remote (HttpPost (Contacts.vendor_url (query_get (query req) "connectionId"))
                (body req) (Contacts.post_headers env)) (peer w) = (Rejected error, v) ->
       fst (run remote apply_res (Contacts.handler env req) w) = inr tt /\
       target (respond remote (Contacts.handler env req) w) =
         {| statusCode := 500;
            responseHeaders := responseHeaders (target w);
            sentBody := Some (JsonBody (JObj [("error", JStr "Error creating contact")])) |} /\
       console (respond remote (Contacts.handler env req) w) =
         (console w ++ [console_error_entry "Error creating contact:" (Some error)])%list) /\
   (forall (wire : call -> V -> wire_reply * V) (reply : wire_reply),
       wire (HttpPost (Contacts.vendor_url (query_get (query req) "connectionId"))
                (body req) (Contacts.post_headers env)) (peer w) = (reply, v) ->
       ((exists error, reply = NetworkFailure error) \/
        (exists code answer,
            reply = HttpReply code answer /\ (code < 200 \/ 300 <= code)%Z) ->
        target (respond (through_axios wire) (Contacts.handler env req) w) =
          {| statusCode := 500;
             responseHeaders := responseHeaders (target w);
             sentBody := Some (JsonBody (JObj [("error", JStr "Error creating contact")])) |}) /\
       (forall code raw,
           reply = HttpReply code (NotJson raw) ->
           (200 <= code < 300)%Z ->
           target (respond (through_axios wire) (Contacts.handler env req) w) =
             {| statusCode := statusCode (target w);
                responseHeaders := responseHeaders (target w);
                sentBody := Some (JsonBody (JStr raw)) |}))).
Proof.
  intros Hid. unfold respond, Contacts.handler. rewrite Hid. simpl negb. cbv iota.
  split; intros Hm; rewrite Hm; simpl String.eqb; cbv iota; open_try; split.
  - intros remote error E. await_with E. repeat split.
  - intros wire reply Hwire. apply through_axios_settles in Hwire. split.
    + intros [(error & ->) | (code & answer & -> & Hcode)].
      * cbn [axios_default] in Hwire. await_with Hwire. reflexivity.
      * rewrite (axios_default_failure answer Hcode) in Hwire.
        await_with Hwire. reflexivity.
    + intros code raw -> Hcode.
      rewrite (axios_default_success (NotJson raw) Hcode) in Hwire.
      await_with Hwire. reflexivity.
  - intros remote error E. await_with E. repeat split.
  - intros wire reply Hwire. apply through_axios_settles in Hwire. split.
    + intros [(error & ->) | (code & answer & -> & Hcode)].
      * cbn [axios_default] in Hwire. await_with Hwire. reflexivity.
      * rewrite (axios_default_failure answer Hcode) in Hwire.
        await_with Hwire. reflexivity.
    + intros code raw -> Hcode.
      rewrite (axios_default_success (NotJson raw) Hcode) in Hwire.
      await_with Hwire. reflexivity.
Qed.

Lemma contacts_failures_as_axios_settles_them_witness :
  target (respond Fixtures.unreachable
            (Contacts.handler Fixtures.env Fixtures.get_linked) (arrival tt)) =
    {| statusCode := 500;
       responseHeaders := [];
       sentBody := Some (JsonBody (JObj [("error", JStr "Error fetching contacts")])) |} /\
  target (respond (through_axios Scenes.bad_gateway)
            (Contacts.handler Fixtures.env Fixtures.post_linked) (arrival tt)) =
    {| statusCode := 500;
       responseHeaders := [];
       sentBody := Some (JsonBody (JObj [("error", JStr "Error creating contact")])) |} /\
  target (respond (through_axios Scenes.offline)
            (Contacts.handler Fixtures.env Fixtures.get_linked) (arrival tt)) =
    {| statusCode := 500;
       responseHeaders := [];
       sentBody := Some (JsonBody (JObj [("error", JStr "Error fetching contacts")])) |} /\
  target (respond (through_axios Scenes.garbled)
            (Contacts.handler Fixtures.env Fixtures.get_linked) (arrival tt)) =
    {| statusCode := 200;
       responseHeaders := [];
       sentBody := Some (JsonBody (JStr Scenes.html_page)) |}.
Proof.
  assert (H502 : (502 < 200 \/ 300 <= 502)%Z) by (right; discriminate).
  assert (H200 : (200 <= 200 < 300)%Z) by (split; [discriminate | reflexivity]).
  destruct (@contacts_failures_as_axios_settles_them unit Fixtures.env Fixtures.get_linked
              (arrival tt) tt eq_refl) as [Hget _].
  destruct (@contacts_failures_as_axios_settles_them unit Fixtures.env Fixtures.post_linked
              (arrival tt) tt eq_refl) as [_ Hpost].
  destruct (Hget eq_refl) as [Hrejected Hwire].
  destruct (Hpost eq_refl) as [_ Hwire'].
  split; [| split; [| split]].
  - exact (proj1 (proj2 (Hrejected Fixtures.unreachable Fixtures.refused eq_refl))).
  - apply (proj1 (Hwire' Scenes.bad_gateway _ eq_refl)).
    right. exists 502%Z, (NotJson Scenes.html_page). split; [reflexivity | exact H502].
  - apply (proj1 (Hwire Scenes.offline _ eq_refl)).
    left. exists Fixtures.refused. reflexivity.
  - exact (proj2 (Hwire Scenes.garbled _ eq_refl) 200%Z Scenes.html_page eq_refl H200).
Defined.

(** C6, as the claim words it, fails for malformed JSON: the vendor's address
    answers 200 with a page of HTML, axios resolves with that text, and the
    route answers 200 with the text, not 500 with the generic body. *)
Lemma contacts_malformed_json_is_not_a_500 :
  ~ (forall (wire : call -> unit -> wire_reply * unit) (env : Env)
            (req : NextApiRequest) (w : world unit ServerResponse)
            (code : Z) (raw : string) (v : unit),
        truthy_query (query_get (query req) "connectionId") = true ->
        method req = "GET" ->
        wire (HttpGet (Contacts.vendor_url (query_get (query req) "connectionId"))
                (Contacts.get_headers env)) (peer w)
          = (HttpReply code (NotJson raw), v) ->
        target (respond (through_axios wire) (Contacts.handler env req) w) =
          {| statusCode := 500;
             responseHeaders := responseHeaders (target w);
             sentBody :=
               Some (JsonBody (JObj [("error", JStr "Error fetching contacts")])) |}).
Proof.
  intros H.
  specialize (H Scenes.garbled Fixtures.env Fixtures.get_linked (arrival tt)
                200%Z Scenes.html_page tt eq_refl eq_refl eq_refl).
  vm_compute in H. discriminate.
Qed.

(** ** The Session Bridge *)

(** C4.  When the vendor's token endpoint answers and [response.data.token]
    reads as [token], the route answers 200 with the body [{token}]: the
    value is the vendor's, untouched.  One request went out, to the token
    URL of the configured user with the configured bearer key. *)
Theorem token_is_passed_through
  (V : Type) (remote : call -> V -> outcome * V)
  (env : Env) (req : NextApiRequest) (w : world V ServerResponse)
  (response : AxiosResponse) (v : V) (token : jsval) :
  remote (HttpGet (GetJwtToken.token_url env) (GetJwtToken.token_headers env)) (peer w)
    = (Resolved response, v) ->
  js_get (data response) "token" = inr token ->
  run remote apply_res (GetJwtToken.handler env req) w =
  (inr tt,
   {| peer := v;
      sent := sent w ++
              [HttpGet (GetJwtToken.token_url env) (GetJwtToken.token_headers env)];
      console := console w;
      target := {| statusCode := 200;
                   responseHeaders := responseHeaders (target w);
                   sentBody := Some (JsonBody (JObj [("token", token)])) |} |}).
Proof.
  intros E Htoken. unfold GetJwtToken.handler.
  open_try. await_with E.
  unfold read. simpl. rewrite Htoken. reflexivity.
Qed.

Lemma token_is_passed_through_witness :
  target (respond Fixtures.vendor
            (GetJwtToken.handler Fixtures.env Fixtures.get_linked) (arrival [])) =
  {| statusCode := 200;
     responseHeaders := [];
     sentBody := Some (JsonBody (JObj [("token", JStr "jwt-abc")])) |}.
Proof.
  unfold respond.
  rewrite (@token_is_passed_through _ Fixtures.vendor Fixtures.env Fixtures.get_linked
             (arrival [])
             {| status := 200; data := JObj [("token", JStr "jwt-abc")] |}
             [] (JStr "jwt-abc") eq_refl eq_refl).
  reflexivity.
Defined.

(** C5, as the code has it.  A rejected vendor call (vendor unreachable,
    non-success status) is answered with the one generic failure, 500 and
    [{error: 'Error generating JWT token'}], and so is an answer whose
    [data] is [null] or [undefined], because reading [.token] from it throws
    inside the [try].  An answer whose [data] is any other value without a
    [token] is not taken for a failure: the route answers 200 and hands
    [{token: undefined}] to [res.json]. *)
Theorem token_failures_as_the_route_reports_them
  (V : Type) (remote : call -> V -> outcome * V)
  (env : Env) (req : NextApiRequest) (w : world V ServerResponse) (v : V) :
  (forall error,
      remote (HttpGet (GetJwtToken.token_url env) (GetJwtToken.token_headers env)) (peer w)
        = (Rejected error, v) ->
      target (respond remote (GetJwtToken.handler env req) w) =
        {| statusCode := 500;
           responseHeaders := responseHeaders (target w);
           sentBody :=
             Some (JsonBody (JObj [("error", JStr "Error generating JWT token")])) |})
  /\
  (forall response,
      remote (HttpGet (GetJwtToken.token_url env) (GetJwtToken.token_headers env)) (peer w)
        = (Resolved response, v) ->
      data response = JNull \/ data response = JUndefined ->
      target (respond remote (GetJwtToken.handler env req) w) =
        {| statusCode := 500;
           responseHeaders := responseHeaders (target w);
           sentBody :=
             Some (JsonBody (JObj [("error", JStr "Error generating JWT token")])) |})
  /\
  (forall response,
      remote (HttpGet (GetJwtToken.token_url env) (GetJwtToken.token_headers env)) (peer w)
        = (Resolved response, v) ->
      js_get (data response) "token" = inr JUndefined ->
      target (respond remote (GetJwtToken.handler env req) w) =
        {| statusCode := 200;
           responseHeaders := responseHeaders (target w);
           sentBody := Some (JsonBody (JObj [("token", JUndefined)])) |}).
Proof.
  unfold respond, GetJwtToken.handler.
  open_try.
  split; [| split].
  - intros error E. await_with E. reflexivity.
  - intros response E Hdata. await_with E.
    unfold read. simpl. destruct Hdata as [-> | ->]; reflexivity.
  - intros response E Htoken. await_with E.
    unfold read. simpl. rewrite Htoken. reflexivity.
Qed.

Lemma token_failures_as_the_route_reports_them_witness :
  statusCode (target (respond Fixtures.unreachable
                        (GetJwtToken.handler Fixtures.env Fixtures.get_linked)
                        (arrival tt))) = 500%Z /\
  statusCode (target (respond Fixtures.null_body
                        (GetJwtToken.handler Fixtures.env Fixtures.get_linked)
                        (arrival tt))) = 500%Z /\
  target (respond Fixtures.tokenless
            (GetJwtToken.handler Fixtures.env Fixtures.get_linked) (arrival tt)) =
    {| statusCode := 200;
       responseHeaders := [];
       sentBody := Some (JsonBody (JObj [("token", JUndefined)])) |}.
Proof.
  destruct (@token_failures_as_the_route_reports_them _ Fixtures.unreachable
              Fixtures.env Fixtures.get_linked (arrival tt) tt) as (Hrej & _ & _).
  destruct (@token_failures_as_the_route_reports_them _ Fixtures.null_body
              Fixtures.env Fixtures.get_linked (arrival tt) tt) as (_ & Hnull & _).
  destruct (@token_failures_as_the_route_reports_them _ Fixtures.tokenless
              Fixtures.env Fixtures.get_linked (arrival tt) tt) as (_ & _ & Hmiss).
  split; [| split].
  - rewrite (Hrej Fixtures.refused eq_refl). reflexivity.
  - rewrite (Hnull {| status := 200; data := JNull |} eq_refl (or_introl eq_refl)).
    reflexivity.
  - exact (Hmiss {| status := 200; data := JObj [] |} eq_refl eq_refl).
Defined.

(** C5, as the claim words it, fails: the vendor answers with an object that
    has no [token], and the route answers 200, not 500. *)
Lemma token_missing_is_not_reported_as_failure :
  ~ (forall (env : Env) (req : NextApiRequest) (w : world unit ServerResponse)
            (response : AxiosResponse) (v : unit),
        Fixtures.tokenless
          (HttpGet (GetJwtToken.token_url env) (GetJwtToken.token_headers env)) (peer w)
          = (Resolved response, v) ->
        js_get (data response) "token" = inr JUndefined ->
        statusCode (target (respond Fixtures.tokenless (GetJwtToken.handler env req) w))
          = 500%Z).
Proof.
  intros H.
  specialize (H Fixtures.env Fixtures.get_linked (arrival tt)
                {| status := 200; data := JObj [] |} tt eq_refl eq_refl).
  vm_compute in H. discriminate.
Qed.

(** C10.  The token route never reads its request: two requests, whatever
    their methods, queries and bodies, give the same program, hence the same
    vendor request and the same response.  Every run ends with status 200 or
    500, so no 405 comes from this route. *)
Theorem token_route_ignores_the_request
  (env : Env) (req1 req2 : NextApiRequest) :
  GetJwtToken.handler env req1 = GetJwtToken.handler env req2 /\
  (forall (V : Type) (remote : call -> V -> outcome * V) (w : world V ServerResponse),
      statusCode (target (respond remote (GetJwtToken.handler env req1) w)) = 200%Z \/
      statusCode (target (respond remote (GetJwtToken.handler env req1) w)) = 500%Z) /\
  (forall (V : Type) (remote : call -> V -> outcome * V) (w : world V ServerResponse),
      statusCode (target (respond remote (GetJwtToken.handler env req1) w)) <> 405%Z).
Proof.
  assert (Hstatus : forall (V : Type) (remote : call -> V -> outcome * V)
                           (w : world V ServerResponse),
             statusCode (target (respond remote (GetJwtToken.handler env req1) w)) = 200%Z \/
             statusCode (target (respond remote (GetJwtToken.handler env req1) w)) = 500%Z).
  { intros V remote w. unfold respond, GetJwtToken.handler.
    open_try.
    destruct (remote (HttpGet (GetJwtToken.token_url env) (GetJwtToken.token_headers env))
                (peer w)) as [[response | error] v] eqn:E; await_with E.
    - unfold read. simpl. destruct (js_get (data response) "token"); simpl; auto.
    - simpl. auto. }
  split; [reflexivity | split; [exact Hstatus |]].
  intros V remote w. destruct (Hstatus V remote w) as [-> | ->]; discriminate.
Qed.

(** ** Repeated reads *)

Lemma contacts_get_leaves_vendor
  (V : Type) (remote : call -> V -> outcome * V)
  (env : Env) (req : NextApiRequest) (w : world V ServerResponse) :
  method req = "GET" ->
  snd (remote (HttpGet (Contacts.vendor_url (query_get (query req) "connectionId"))
                 (Contacts.get_headers env)) (peer w)) = peer w ->
  peer (respond remote (Contacts.handler env req) w) = peer w.
Proof.
  intros Hm Hread. unfold respond, Contacts.handler.
  destruct (truthy_query (query_get (query req) "connectionId")); simpl negb; cbv iota.
  - rewrite Hm. simpl String.eqb. cbv iota.
    open_try.
    destruct (remote (HttpGet (Contacts.vendor_url (query_get (query req) "connectionId"))
                        (Contacts.get_headers env)) (peer w))
      as [[response | error] v] eqn:E; simpl in Hread; subst v;
      await_with E; reflexivity.
  - reflexivity.
Qed.

(** C9.  The route keeps nothing between two requests: what it answers is
    computed from the configuration, the request and the vendor's answer.
    When the vendor's state is not changed by the read, a GET served any
    number of times in a row, each time with a fresh [res], gives the same
    response every time. *)
Theorem contacts_get_is_idempotent
  (V : Type) (remote : call -> V -> outcome * V)
  (env : Env) (req : NextApiRequest) (v : V) (n : nat) :
  method req = "GET" ->
  snd (remote (HttpGet (Contacts.vendor_url (query_get (query req) "connectionId"))
                 (Contacts.get_headers env)) v) = v ->
  serve_repeatedly remote (Contacts.handler env req) n v =
  repeat (fst (serve remote (Contacts.handler env req) v)) n.
Proof.
  intros Hm Hread.
  assert (Hsame : snd (serve remote (Contacts.handler env req) v) = v).
  { unfold serve. simpl snd. apply (contacts_get_leaves_vendor remote env req (arrival v) Hm).
    exact Hread. }
  induction n as [| n IH]; cbn [serve_repeatedly repeat].
  - reflexivity.
  - destruct (serve remote (Contacts.handler env req) v) as [r v'] eqn:E.
    cbn [fst snd] in *. subst v'. now rewrite IH.
Qed.

Lemma contacts_get_is_idempotent_witness :
  serve_repeatedly Fixtures.vendor
    (Contacts.handler Fixtures.env Fixtures.get_linked) 3 [Fixtures.ada] =
  repeat {| statusCode := 200;
            responseHeaders := [];
            sentBody := Some (JsonBody (JObj [("contacts", JArr [Fixtures.ada])])) |} 3.
Proof.
  rewrite (@contacts_get_is_idempotent _ Fixtures.vendor Fixtures.env
             Fixtures.get_linked [Fixtures.ada] 3 eq_refl eq_refl).
  reflexivity.
Defined.

(** ** The views *)

(** C7.  With a connection identifier present: when the create call
    succeeds, [handleSubmit] leaves both fields of the form empty; when it is
    rejected, the form is what it was before the submission and the error is
    logged.  When the fetch of the Listing view is rejected, [contacts] is
    what it was, the loading flag is down and the error is logged. *)
Theorem views_after_success_and_failure
  (V : Type) (remote : call -> V -> outcome * V)
  (connectionId : string) (rendered : CreateContact.State) (v : V) :
  truthy_string connectionId = true ->
  (forall (w : world V CreateContact.Submission) response,
      remote (HttpPost (CreateContact.gateway_url connectionId)
                (JObj [("firstName", JStr (CreateContact.firstName rendered));
                       ("lastName", JStr (CreateContact.lastName rendered))]) [])
        (peer w) = (Resolved response, v) ->
      CreateContact.form
        (target (snd (run remote CreateContact.apply_action
                        (CreateContact.handleSubmit connectionId rendered) w))) =
        {| CreateContact.firstName := ""; CreateContact.lastName := "" |})
  /\
  (forall (w : world V CreateContact.Submission) error,
      remote (HttpPost (CreateContact.gateway_url connectionId)
                (JObj [("firstName", JStr (CreateContact.firstName rendered));
                       ("lastName", JStr (CreateContact.lastName rendered))]) [])
        (peer w) = (Rejected error, v) ->
      CreateContact.form
        (target (snd (run remote CreateContact.apply_action
                        (CreateContact.handleSubmit connectionId rendered) w))) =
        CreateContact.form (target w) /\
      console (snd (run remote CreateContact.apply_action
                      (CreateContact.handleSubmit connectionId rendered) w)) =
        (console w ++ [console_error_entry "Error adding contact:" (Some error)])%list)
  /\
  (forall (w : world V ContactList.State) error,
      remote (HttpGet (ContactList.gateway_url connectionId) []) (peer w)
        = (Rejected error, v) ->
      target (snd (run remote ContactList.apply_action
                     (ContactList.fetchContacts connectionId) w)) =
        {| ContactList.contacts := ContactList.contacts (target w);
           ContactList.isLoading := false |} /\
      console (snd (run remote ContactList.apply_action
                      (ContactList.fetchContacts connectionId) w)) =
        (console w ++ [console_error_entry "Error fetching contacts:" (Some error)])%list).
Proof.
  intros Hid. split; [| split].
  - intros w response E. unfold CreateContact.handleSubmit. rewrite Hid.
    open_try. cbn [update prog_bind run].
    await_with E. reflexivity.
  - intros w error E. unfold CreateContact.handleSubmit. rewrite Hid.
    open_try. cbn [update prog_bind run].
    await_with E.
    destruct w as [pv ps pc [[fn ln] dp]]. split; reflexivity.
  - intros w error E. unfold ContactList.fetchContacts. rewrite Hid.
    open_try. cbn [update prog_bind run].
    await_with E. split; reflexivity.
Qed.

Lemma views_after_success_and_failure_witness :
  CreateContact.form
    (target (snd (run Fixtures.vendor CreateContact.apply_action
                    (CreateContact.handleSubmit "conn-42" Fixtures.typed)
                    (Fixtures.browser [] Fixtures.submitting)))) =
    {| CreateContact.firstName := ""; CreateContact.lastName := "" |} /\
  CreateContact.form
    (target (snd (run Fixtures.unreachable CreateContact.apply_action
                    (CreateContact.handleSubmit "conn-42" Fixtures.typed)
                    (Fixtures.browser tt Fixtures.submitting)))) = Fixtures.typed /\
  target (snd (run Fixtures.unreachable ContactList.apply_action
                 (ContactList.fetchContacts "conn-42")
                 (Fixtures.browser tt Fixtures.shown))) = Fixtures.shown.
Proof.
  destruct (@views_after_success_and_failure _ Fixtures.vendor "conn-42" Fixtures.typed
              [Fixtures.ada] eq_refl) as (Hok & _ & _).
  destruct (@views_after_success_and_failure _ Fixtures.unreachable "conn-42"
              Fixtures.typed tt eq_refl) as (_ & Hform & Hlist).
  split; [| split].
  - exact (Hok (Fixtures.browser [] Fixtures.submitting)
             {| status := 200; data := Fixtures.ada |} eq_refl).
  - exact (proj1 (Hform (Fixtures.browser tt Fixtures.submitting) Fixtures.refused eq_refl)).
  - exact (proj1 (Hlist (Fixtures.browser tt Fixtures.shown) Fixtures.refused eq_refl)).
Defined.

Lemma step_keeps_unlinked
  (V : Type) (remote : call -> V -> outcome * V)
  (w : world V Home.Page) (e : Home.event) :
  truthy_string (Home.connectionId (target w)) = false ->
  Home.keeps_unlinked e = true ->
  truthy_string (Home.connectionId (target (Home.step remote w e))) = false /\
  sent (Home.step remote w e) = sent w /\
  peer (Home.step remote w e) = peer w.
Proof.
  intros Hw He. destruct e as [id |]; simpl in He.
  - apply negb_true_iff in He.
    unfold Home.step, Home.handleConnectionEstablished.
    destruct (String.eqb id (Home.connectionId (target w))).
    + auto.
    + rewrite He. simpl. auto.
  - unfold Home.step, Home.refresh, Home.listing_view, Home.render.
    rewrite Hw. simpl. auto.
Qed.

Lemma steps_keep_unlinked
  (V : Type) (remote : call -> V -> outcome * V)
  (es : list Home.event) (w : world V Home.Page) :
  truthy_string (Home.connectionId (target w)) = false ->
  forallb Home.keeps_unlinked es = true ->
  truthy_string (Home.connectionId (target (Home.steps remote w es))) = false /\
  sent (Home.steps remote w es) = sent w /\
  peer (Home.steps remote w es) = peer w.
Proof.
  revert w. induction es as [| e es IH]; intros w Hw Hes.
  - simpl. auto.
  - simpl in Hes. apply andb_true_iff in Hes. destruct Hes as [He Hes].
    destruct (step_keeps_unlinked remote w e Hw He) as (Hw' & Hsent & Hpeer).
    destruct (IH (Home.step remote w e) Hw' Hes) as (Hw'' & Hsent' & Hpeer').
    unfold Home.steps in *. simpl.
    rewrite Hsent', Hpeer'. auto.
Qed.

(** C8, as the code has it.  While the page holds no connection identifier,
    whatever happened before, the page does not mount the Listing view:
    nothing is rendered in its section, not even the prompt, and no event
    that leaves the page without an identifier makes a request.  The Listing
    view itself, rendered with an empty connection identifier, returns the
    "complete Step 1" prompt whatever its state, and its [fetchContacts] does
    nothing at all. *)
Theorem listing_while_unlinked
  (V : Type) (remote : call -> V -> outcome * V) :
  (forall (w : world V Home.Page) (es : list Home.event),
      truthy_string (Home.connectionId (target w)) = false ->
      forallb Home.keeps_unlinked es = true ->
      Home.step2 (Home.render (target (Home.steps remote w es))) = None /\
      Home.listing_view (target (Home.steps remote w es)) = None /\
      sent (Home.steps remote w es) = sent w /\
      peer (Home.steps remote w es) = peer w)
  /\
  (forall (connectionId : string) (s : ContactList.State),
      truthy_string connectionId = false ->
      ContactList.render connectionId s = Some ContactList.Step1Prompt)
  /\
  (forall (connectionId : string) (w : world V ContactList.State),
      truthy_string connectionId = false ->
      run remote ContactList.apply_action (ContactList.fetchContacts connectionId) w =
      (inr tt, w)).
Proof.
  split; [| split].
  - intros w es Hw Hes.
    destruct (steps_keep_unlinked remote es w Hw Hes) as (Hw' & Hsent & Hpeer).
    unfold Home.listing_view, Home.render. rewrite Hw'. simpl. auto.
  - intros connectionId s Hid. unfold ContactList.render. now rewrite Hid.
  - intros connectionId w Hid. unfold ContactList.fetchContacts. now rewrite Hid.
Qed.

Lemma listing_while_unlinked_witness :
  Home.listing_view
    (target (Home.steps Fixtures.vendor (Fixtures.browser [Fixtures.ada] Home.initial)
               [Home.RefreshClicked; Home.ConnectionEstablished ""; Home.RefreshClicked]))
    = None /\
  sent (Home.steps Fixtures.vendor (Fixtures.browser [Fixtures.ada] Home.initial)
          [Home.RefreshClicked; Home.ConnectionEstablished ""; Home.RefreshClicked])
    = [] /\
  ContactList.render "" Fixtures.shown = Some ContactList.Step1Prompt /\
  run Fixtures.vendor ContactList.apply_action (ContactList.fetchContacts "")
    (Fixtures.browser [Fixtures.ada] Fixtures.shown) =
    (inr tt, Fixtures.browser [Fixtures.ada] Fixtures.shown).
Proof.
  destruct (@listing_while_unlinked _ Fixtures.vendor) as (Hpage & Hview & Hfetch).
  destruct (Hpage (Fixtures.browser [Fixtures.ada] Home.initial)
              [Home.RefreshClicked; Home.ConnectionEstablished ""; Home.RefreshClicked]
              eq_refl eq_refl) as (_ & Hnone & Hsent & _).
  split; [exact Hnone | split; [exact Hsent | split]].
  - exact (Hview "" Fixtures.shown eq_refl).
  - exact (Hfetch "" (Fixtures.browser [Fixtures.ada] Fixtures.shown) eq_refl).
Defined.

(** C8, as the claim words it, fails: on the page as it starts, without a
    connection identifier, the section of the Listing view shows nothing,
    so it does not show the prompt. *)
Lemma unlinked_page_shows_no_prompt :
  ~ (forall p : Home.Page,
        truthy_string (Home.connectionId p) = false ->
        Home.listing_view p = Some ContactList.Step1Prompt).
Proof.
  intros H. specialize (H Home.initial eq_refl). discriminate.
Qed.

(** Once an identifier arrives the Listing view is mounted and fetches once;
    a click on the refresh button fetches again. *)
Example linked_page_fetches :
  sent (Home.steps Fixtures.vendor (Fixtures.browser [Fixtures.ada] Home.initial)
          [Home.ConnectionEstablished "conn-42"])
    = [HttpGet "/api/contacts?connectionId=conn-42" []] /\
  Home.listing_view
    (target (Home.steps Fixtures.vendor (Fixtures.browser [Fixtures.ada] Home.initial)
               [Home.ConnectionEstablished "conn-42"]))
    = Some (ContactList.ContactsPanel (ContactList.ContactItems [Fixtures.ada]) false) /\
  length (sent (Home.steps Fixtures.vendor (Fixtures.browser [Fixtures.ada] Home.initial)
                  [Home.ConnectionEstablished "conn-42"; Home.RefreshClicked]))
    = 2.
Proof. repeat split. Qed.

(** ** Further properties of the routes *)

(** The target and the vendor state left by a contacts request, for each way
    through the route. *)
Lemma contacts_run_cases
  (V : Type) (remote : call -> V -> outcome * V)
  (env : Env) (req : NextApiRequest) (w : world V ServerResponse) :
  (truthy_query (query_get (query req) "connectionId") = false /\
   run remote apply_res (Contacts.handler env req) w =
   (inr tt,
    {| peer := peer w; sent := sent w; console := console w;
       target := {| statusCode := 400;
                    responseHeaders := responseHeaders (target w);
                    sentBody := Some (JsonBody
                                  (JObj [("error", JStr "ConnectionId is required")])) |} |}))
  \/
  (truthy_query (query_get (query req) "connectionId") = true /\
   method req <> "GET" /\ method req <> "POST" /\
   run remote apply_res (Contacts.handler env req) w =
   (inr tt,
    {| peer := peer w; sent := sent w; console := console w;
       target := {| statusCode := 405;
                    responseHeaders :=
                      set_header (responseHeaders (target w)) "Allow" ["GET"; "POST"];
                    sentBody :=
                      Some (TextBody ("Method " ++ method req ++ " Not Allowed")) |} |}))
  \/
  (truthy_query (query_get (query req) "connectionId") = true /\
   exists c,
     (method req = "GET" /\
      c = HttpGet (Contacts.vendor_url (query_get (query req) "connectionId"))
            (Contacts.get_headers env)
      \/
      method req = "POST" /\
      c = HttpPost (Contacts.vendor_url (query_get (query req) "connectionId"))
            (body req) (Contacts.post_headers env)) /\
     ((exists response v,
          remote c (peer w) = (Resolved response, v) /\
          run remote apply_res (Contacts.handler env req) w =
          (inr tt,
           {| peer := v; sent := sent w ++ [c]; console := console w;
              target := {| statusCode := statusCode (target w);
                           responseHeaders := responseHeaders (target w);
                           sentBody := Some (JsonBody (data response)) |} |}))
      \/
      (exists error v line message,
          remote c (peer w) = (Rejected error, v) /\
          run remote apply_res (Contacts.handler env req) w =
          (inr tt,
           {| peer := v; sent := sent w ++ [c]; console := console w ++ [line];
              target := {| statusCode := 500;
                           responseHeaders := responseHeaders (target w);
                           sentBody :=
                             Some (JsonBody (JObj [("error", JStr message)])) |} |})))).
Proof.
  unfold Contacts.handler.
  destruct (truthy_query (query_get (query req) "connectionId")) eqn:Hid;
    simpl negb; cbv iota.
  2: { left. split; reflexivity. }
  right.
  destruct (String.eqb (method req) "GET") eqn:Hget.
  - right. split; [reflexivity |]. apply String.eqb_eq in Hget.
    eexists. split; [left; split; [exact Hget | reflexivity] |].
    open_try.
    destruct (remote (HttpGet (Contacts.vendor_url (query_get (query req) "connectionId"))
                        (Contacts.get_headers env)) (peer w))
      as [[response | error] v] eqn:E; await_with E.
    + left. exists response, v. split; reflexivity.
    + right. exists error, v. do 2 eexists. split; reflexivity.
  - destruct (String.eqb (method req) "POST") eqn:Hpost.
    + right. split; [reflexivity |]. apply String.eqb_eq in Hpost.
      eexists. split; [right; split; [exact Hpost | reflexivity] |].
      open_try.
      destruct (remote (HttpPost (Contacts.vendor_url (query_get (query req) "connectionId"))
                          (body req) (Contacts.post_headers env)) (peer w))
        as [[response | error] v] eqn:E; await_with E.
      * left. exists response, v. split; reflexivity.
      * right. exists error, v. do 2 eexists. split; reflexivity.
    + left. apply String.eqb_neq in Hget. apply String.eqb_neq in Hpost.
      repeat split; assumption.
Qed.

(** X1.  The status codes of the contacts route, for a fresh [res]: the
    answer is 200, 400, 405 or 500; it is 400 exactly when [connectionId] is
    falsy, 405 exactly when [connectionId] is truthy and the verb is neither
    GET nor POST; a 500 is only ever the answer to a rejected vendor call,
    and a 200 only ever carries the [data] of a resolved vendor call. *)
Theorem contacts_status_table
  (V : Type) (remote : call -> V -> outcome * V)
  (env : Env) (req : NextApiRequest) (v : V) :
  (statusCode (fst (serve remote (Contacts.handler env req) v)) = 200%Z \/
   statusCode (fst (serve remote (Contacts.handler env req) v)) = 400%Z \/
   statusCode (fst (serve remote (Contacts.handler env req) v)) = 405%Z \/
   statusCode (fst (serve remote (Contacts.handler env req) v)) = 500%Z) /\
  (statusCode (fst (serve remote (Contacts.handler env req) v)) = 400%Z <->
   truthy_query (query_get (query req) "connectionId") = false) /\
  (statusCode (fst (serve remote (Contacts.handler env req) v)) = 405%Z <->
   truthy_query (query_get (query req) "connectionId") = true /\
   method req <> "GET" /\ method req <> "POST") /\
  (statusCode (fst (serve remote (Contacts.handler env req) v)) = 500%Z ->
   exists c error v',
     (method req = "GET" /\
      c = HttpGet (Contacts.vendor_url (query_get (query req) "connectionId"))
            (Contacts.get_headers env)
      \/
      method req = "POST" /\
      c = HttpPost (Contacts.vendor_url (query_get (query req) "connectionId"))
            (body req) (Contacts.post_headers env)) /\
     remote c v = (Rejected error, v')) /\
  (statusCode (fst (serve remote (Contacts.handler env req) v)) = 200%Z ->
   exists c response v',
     (method req = "GET" /\
      c = HttpGet (Contacts.vendor_url (query_get (query req) "connectionId"))
            (Contacts.get_headers env)
      \/
      method req = "POST" /\
      c = HttpPost (Contacts.vendor_url (query_get (query req) "connectionId"))
            (body req) (Contacts.post_headers env)) /\
     remote c v = (Resolved response, v') /\
     sentBody (fst (serve remote (Contacts.handler env req) v)) =
       Some (JsonBody (data response))).
Proof.
  unfold serve, respond. cbn [fst].
  destruct (contacts_run_cases remote env req (arrival v))
    as [(Hid & Hrun)
       | [(Hid & Hget & Hpost & Hrun)
         | (Hid & c & Hc & [(response & v' & E & Hrun)
                           | (error & v' & line & message & E & Hrun)])]];
    rewrite Hrun; cbn [snd target statusCode sentBody arrival fresh_res]; rewrite Hid.
  - repeat split; auto; try discriminate; intros (H & _); discriminate.
  - repeat split; auto; try discriminate.
  - repeat split; auto; try discriminate.
    + intros (_ & Hget & Hpost). destruct Hc as [(Hm & _) | (Hm & _)]; contradiction.
    + intros _. exists c, response, v'. split; [exact Hc | split; [exact E | reflexivity]].
  - repeat split; auto; try discriminate.
    + intros (_ & Hget & Hpost). destruct Hc as [(Hm & _) | (Hm & _)]; contradiction.
    + intros _. exists c, error, v'. split; [exact Hc | exact E].
Qed.

Lemma contacts_status_table_witness :
  statusCode (fst (serve Fixtures.vendor
                     (Contacts.handler Fixtures.env Fixtures.delete_bare) [])) = 400%Z /\
  statusCode (fst (serve Fixtures.vendor
                     (Contacts.handler Fixtures.env Fixtures.delete_linked) [])) = 405%Z.
Proof.
  assert (Hget : "DELETE" <> "GET") by discriminate.
  assert (Hpost : "DELETE" <> "POST") by discriminate.
  destruct (@contacts_status_table _ Fixtures.vendor Fixtures.env Fixtures.delete_bare [])
    as (_ & H400 & _).
  destruct (@contacts_status_table _ Fixtures.vendor Fixtures.env Fixtures.delete_linked [])
    as (_ & _ & H405 & _).
  split.
  - exact (proj2 H400 eq_refl).
  - exact (proj2 H405 (conj eq_refl (conj Hget Hpost))).
Defined.

(** X2.  Whatever the request and whatever the vendor does, the contacts
    route lets no exception escape and always sends a body.  It makes one
    vendor request when [connectionId] is truthy and the verb is GET or POST,
    whichever way that request settles, and none otherwise. *)
Theorem contacts_always_answers
  (V : Type) (remote : call -> V -> outcome * V)
  (env : Env) (req : NextApiRequest) (w : world V ServerResponse) :
  fst (run remote apply_res (Contacts.handler env req) w) = inr tt /\
  sentBody (target (respond remote (Contacts.handler env req) w)) <> None /\
  ((truthy_query (query_get (query req) "connectionId") = true /\
    (method req = "GET" \/ method req = "POST")) /\
   (exists c, sent (respond remote (Contacts.handler env req) w) = (sent w ++ [c])%list)
   \/
   ~ (truthy_query (query_get (query req) "connectionId") = true /\
      (method req = "GET" \/ method req = "POST")) /\
   sent (respond remote (Contacts.handler env req) w) = sent w /\
   peer (respond remote (Contacts.handler env req) w) = peer w).
Proof.
  unfold respond.
  destruct (contacts_run_cases remote env req w)
    as [(Hid & Hrun)
       | [(Hid & Hget & Hpost & Hrun)
         | (Hid & c & Hc & [(response & v' & E & Hrun)
                           | (error & v' & line & message & E & Hrun)])]];
    rewrite Hrun; cbn [fst snd target sent peer sentBody];
    (split; [reflexivity | split; [discriminate |]]).
  - right. split; [| split; reflexivity].
    intros (H & _). rewrite Hid in H. discriminate.
  - right. split; [| split; reflexivity].
    intros (_ & [H | H]); contradiction.
  - left. split; [split; [exact Hid | tauto] | exists c; reflexivity].
  - left. split; [split; [exact Hid | tauto] | exists c; reflexivity].
Qed.

(** X3.  A repeated [connectionId] parameter reaches the route as an array,
    which is truthy whatever it holds: the guard lets the request through,
    even when every item is empty, and a GET asks the vendor for the items
    joined by commas; the answer is not the 400 of the guard. *)
Theorem contacts_array_connectionId_passes_guard
  (V : Type) (remote : call -> V -> outcome * V)
  (env : Env) (req : NextApiRequest) (v : V) (items : list string) :
  query_get (query req) "connectionId" = Some (QArray items) ->
  method req = "GET" ->
  sent (respond remote (Contacts.handler env req) (arrival v)) =
    [HttpGet ("https://embedded.runalloy.com/2023-12/one/crm/contacts?connectionId="
              ++ String.concat "," items)
       (Contacts.get_headers env)] /\
  statusCode (target (respond remote (Contacts.handler env req) (arrival v))) <> 400%Z.
Proof.
  intros Hq Hm. unfold respond.
  destruct (contacts_run_cases remote env req (arrival v))
    as [(Hid & Hrun)
       | [(Hid & Hget & Hpost & Hrun)
         | (Hid & c & Hc & [(response & v' & E & Hrun)
                           | (error & v' & line & message & E & Hrun)])]].
  - rewrite Hq in Hid. discriminate.
  - contradiction.
  - destruct Hc as [(_ & ->) | (Hp & _)]; [| rewrite Hm in Hp; discriminate].
    rewrite Hrun. cbn [snd sent target statusCode arrival fresh_res app].
    unfold Contacts.vendor_url. rewrite Hq. cbn [template_query].
    split; [reflexivity | discriminate].
  - destruct Hc as [(_ & ->) | (Hp & _)]; [| rewrite Hm in Hp; discriminate].
    rewrite Hrun. cbn [snd sent target statusCode arrival fresh_res app].
    unfold Contacts.vendor_url. rewrite Hq. cbn [template_query].
    split; [reflexivity | discriminate].
Qed.

Lemma contacts_array_connectionId_passes_guard_witness :
  sent (respond Fixtures.vendor
          (Contacts.handler Fixtures.env Scenes.get_twice_empty) (arrival [])) =
    [HttpGet "https://embedded.runalloy.com/2023-12/one/crm/contacts?connectionId=,"
       (Contacts.get_headers Fixtures.env)] /\
  statusCode (target (respond Fixtures.vendor
                        (Contacts.handler Fixtures.env Scenes.get_twice_empty)
                        (arrival []))) <> 400%Z.
Proof.
  exact (@contacts_array_connectionId_passes_guard _ Fixtures.vendor Fixtures.env
           Scenes.get_twice_empty [] [""; ""] eq_refl eq_refl).
Defined.

Lemma token_run_shape
  (V : Type) (remote : call -> V -> outcome * V)
  (env : Env) (req : NextApiRequest) (w : world V ServerResponse) :
  exists v lines res,
    run remote apply_res (GetJwtToken.handler env req) w =
    (inr tt,
     {| peer := v;
        sent := sent w ++
                [HttpGet (GetJwtToken.token_url env) (GetJwtToken.token_headers env)];
        console := console w ++ lines;
        target := res |}) /\
    sentBody res <> None.
Proof.
  unfold GetJwtToken.handler. open_try.
  destruct (remote (HttpGet (GetJwtToken.token_url env) (GetJwtToken.token_headers env))
              (peer w)) as [[response | error] v] eqn:E; await_with E.
  - unfold read. simpl.
    destruct (js_get (data response) "token") as [e | token]; simpl.
    + exists v. eexists [_]. eexists. split; [reflexivity | discriminate].
    + exists v, []. eexists. rewrite app_nil_r. split; [reflexivity | discriminate].
  - simpl. exists v. eexists [_]. eexists. split; [reflexivity | discriminate].
Qed.

(** X4.  Whatever the request and whatever the vendor does, the token route
    makes exactly one vendor request, a GET of the configured user's token
    URL with the configured bearer key, lets no exception escape and always
    sends a body. *)
Theorem token_route_always_answers
  (V : Type) (remote : call -> V -> outcome * V)
  (env : Env) (req : NextApiRequest) (w : world V ServerResponse) :
  fst (run remote apply_res (GetJwtToken.handler env req) w) = inr tt /\
  sent (respond remote (GetJwtToken.handler env req) w) =
    (sent w ++
     [HttpGet (GetJwtToken.token_url env) (GetJwtToken.token_headers env)])%list /\
  sentBody (target (respond remote (GetJwtToken.handler env req) w)) <> None.
Proof.
  unfold respond.
  destruct (token_run_shape remote env req w) as (v & lines & res & Hrun & Hbody).
  rewrite Hrun. cbn [fst snd sent target]. repeat split; assumption.
Qed.

(** X5.  The routes never check their configuration.  With the two
    environment variables unset, the token route still calls the vendor, for
    the user "undefined" with the credential "Bearer undefined", and a GET on
    the contacts route with a truthy [connectionId] still calls the vendor
    with the credential "bearer undefined". *)
Theorem unset_configuration_is_sent_as_undefined
  (V : Type) (remote : call -> V -> outcome * V)
  (env : Env) (req : NextApiRequest) (w : world V ServerResponse) :
  ALLOY_API_KEY env = None ->
  ALLOY_USER_ID env = None ->
  sent (respond remote (GetJwtToken.handler env req) w) =
    (sent w ++
     [HttpGet "https://embedded.runalloy.com/2023-12/users/undefined/token"
        [("Authorization", "Bearer undefined"); ("accept", "application/json")]])%list /\
  (truthy_query (query_get (query req) "connectionId") = true ->
   method req = "GET" ->
   sent (respond remote (Contacts.handler env req) w) =
     (sent w ++
      [HttpGet (Contacts.vendor_url (query_get (query req) "connectionId"))
         [("Authorization", "bearer undefined"); ("accept", "application/json")]])%list).
Proof.
  intros Hkey Huser. split.
  - unfold respond.
    destruct (token_run_shape remote env req w) as (v & lines & res & Hrun & _).
    rewrite Hrun. cbn [snd sent].
    unfold GetJwtToken.token_url, GetJwtToken.token_headers.
    rewrite Hkey, Huser. reflexivity.
  - intros Hid Hm. unfold respond.
    destruct (contacts_run_cases remote env req w)
      as [(Hid' & Hrun)
         | [(_ & Hget & _ & Hrun)
           | (_ & c & Hc & [(response & v' & E & Hrun)
                             | (error & v' & line & message & E & Hrun)])]].
    + rewrite Hid in Hid'. discriminate.
    + contradiction.
    + destruct Hc as [(_ & ->) | (Hp & _)]; [| rewrite Hm in Hp; discriminate].
      rewrite Hrun. cbn [snd sent]. unfold Contacts.get_headers. rewrite Hkey. reflexivity.
    + destruct Hc as [(_ & ->) | (Hp & _)]; [| rewrite Hm in Hp; discriminate].
      rewrite Hrun. cbn [snd sent]. unfold Contacts.get_headers. rewrite Hkey. reflexivity.
Qed.

Lemma unset_configuration_is_sent_as_undefined_witness :
  sent (respond Fixtures.unreachable
          (GetJwtToken.handler Scenes.unset Fixtures.get_linked) (arrival tt)) =
    [HttpGet "https://embedded.runalloy.com/2023-12/users/undefined/token"
       [("Authorization", "Bearer undefined"); ("accept", "application/json")]] /\
  sent (respond Fixtures.unreachable
          (Contacts.handler Scenes.unset Fixtures.get_linked) (arrival tt)) =
    [HttpGet "https://embedded.runalloy.com/2023-12/one/crm/contacts?connectionId=conn-42"
       [("Authorization", "bearer undefined"); ("accept", "application/json")]].
Proof.
  destruct (@unset_configuration_is_sent_as_undefined _ Fixtures.unreachable Scenes.unset
              Fixtures.get_linked (arrival tt) eq_refl eq_refl) as [Htoken Hcontacts].
  split; [exact Htoken | exact (Hcontacts eq_refl eq_refl)].
Defined.

(** ** Further properties of the Listing view *)

Lemma fetchContacts_run_cases
  (V : Type) (remote : call -> V -> outcome * V)
  (connectionId : string) (w : world V ContactList.State) :
  truthy_string connectionId = true ->
  (exists response v value,
      remote (HttpGet (ContactList.gateway_url connectionId) []) (peer w)
        = (Resolved response, v) /\
      js_get (data response) "contacts" = inr value /\
      run remote ContactList.apply_action (ContactList.fetchContacts connectionId) w =
      (inr tt,
       {| peer := v;
          sent := sent w ++ [HttpGet (ContactList.gateway_url connectionId) []];
          console := console w;
          target := {| ContactList.contacts := value;
                       ContactList.isLoading := false |} |}))
  \/
  (exists v thrown,
      ((exists response,
           remote (HttpGet (ContactList.gateway_url connectionId) []) (peer w)
             = (Resolved response, v) /\
           js_get (data response) "contacts" = inl thrown)
       \/
       remote (HttpGet (ContactList.gateway_url connectionId) []) (peer w)
         = (Rejected thrown, v)) /\
      run remote ContactList.apply_action (ContactList.fetchContacts connectionId) w =
      (inr tt,
       {| peer := v;
          sent := sent w ++ [HttpGet (ContactList.gateway_url connectionId) []];
          console := console w ++
                     [console_error_entry "Error fetching contacts:" (Some thrown)];
          target := {| ContactList.contacts := ContactList.contacts (target w);
                       ContactList.isLoading := false |} |})).
Proof.
  intros Hid. unfold ContactList.fetchContacts. rewrite Hid.
  open_try. cbn [update prog_bind run].
  destruct (remote (HttpGet (ContactList.gateway_url connectionId) []) (peer w))
    as [[response | error] v] eqn:E.
  - destruct (js_get (data response) "contacts") as [thrown | value] eqn:Hread.
    + right. exists v, thrown. split.
      * left. exists response. split; [first [exact E | reflexivity] | exact Hread].
      * erewrite run_try_resolved by (cbn [peer answered]; exact E).
        unfold read. rewrite Hread. reflexivity.
    + left. exists response, v, value.
      split; [first [exact E | reflexivity] | split; [exact Hread |]].
      erewrite run_try_resolved by (cbn [peer answered]; exact E).
      unfold read. rewrite Hread. reflexivity.
  - right. exists v, error. split; [right; first [exact E | reflexivity] |].
    erewrite run_try_rejected by (cbn [peer answered]; exact E).
    reflexivity.
Qed.

(** X6.  When the gateway's answer arrives, [fetchContacts] stores
    [response.data.contacts] as it reads, whatever it is, lowers the loading
    flag and logs nothing.  Nothing checks that the value is an array: an
    answer without a [contacts] field replaces the list shown so far by
    [undefined]. *)
Theorem fetchContacts_stores_the_field
  (V : Type) (remote : call -> V -> outcome * V)
  (connectionId : string) (w : world V ContactList.State)
  (response : AxiosResponse) (v : V) (value : jsval) :
  truthy_string connectionId = true ->
  remote (HttpGet ("/api/contacts?connectionId=" ++ connectionId) []) (peer w)
    = (Resolved response, v) ->
  js_get (data response) "contacts" = inr value ->
  target (snd (run remote ContactList.apply_action
                 (ContactList.fetchContacts connectionId) w)) =
    {| ContactList.contacts := value; ContactList.isLoading := false |} /\
  console (snd (run remote ContactList.apply_action
                  (ContactList.fetchContacts connectionId) w)) = console w.
Proof.
  intros Hid E Hread. unfold ContactList.fetchContacts. rewrite Hid.
  open_try. cbn [update prog_bind run].
  erewrite run_try_resolved by (cbn [peer]; exact E).
  unfold read. rewrite Hread. split; reflexivity.
Qed.

Lemma fetchContacts_stores_the_field_witness :
  target (snd (run Fixtures.tokenless ContactList.apply_action
                 (ContactList.fetchContacts "conn-42")
                 (Fixtures.browser tt Fixtures.shown))) =
    {| ContactList.contacts := JUndefined; ContactList.isLoading := false |} /\
  target (snd (run Scenes.two_contacts ContactList.apply_action
                 (ContactList.fetchContacts "conn-42")
                 (Fixtures.browser tt Fixtures.shown))) =
    {| ContactList.contacts := JArr [Fixtures.ada; Scenes.grace];
       ContactList.isLoading := false |}.
Proof.
  split.
  - exact (proj1 (@fetchContacts_stores_the_field _ Fixtures.tokenless "conn-42"
                    (Fixtures.browser tt Fixtures.shown)
                    {| status := 200; data := JObj [] |} tt JUndefined
                    eq_refl eq_refl eq_refl)).
  - exact (proj1 (@fetchContacts_stores_the_field _ Scenes.two_contacts "conn-42"
                    (Fixtures.browser tt Fixtures.shown)
                    {| status := 200;
                       data := JObj [("contacts", JArr [Fixtures.ada; Scenes.grace])] |}
                    tt (JArr [Fixtures.ada; Scenes.grace])
                    eq_refl eq_refl eq_refl)).
Defined.

(** X7.  An answer whose [data] is [null] or [undefined] is handled like a
    failed fetch: reading [.contacts] throws inside the [try], so the list
    shown so far is kept, the loading flag is lowered and one error line is
    logged. *)
Theorem fetchContacts_null_data_is_a_failure
  (V : Type) (remote : call -> V -> outcome * V)
  (connectionId : string) (w : world V ContactList.State)
  (response : AxiosResponse) (v : V) :
  truthy_string connectionId = true ->
  remote (HttpGet ("/api/contacts?connectionId=" ++ connectionId) []) (peer w)
    = (Resolved response, v) ->
  data response = JNull \/ data response = JUndefined ->
  target (snd (run remote ContactList.apply_action
                 (ContactList.fetchContacts connectionId) w)) =
    {| ContactList.contacts := ContactList.contacts (target w);
       ContactList.isLoading := false |} /\
  exists thrown,
    console (snd (run remote ContactList.apply_action
                    (ContactList.fetchContacts connectionId) w)) =
      (console w ++ [console_error_entry "Error fetching contacts:" (Some thrown)])%list.
Proof.
  intros Hid E Hdata. unfold ContactList.fetchContacts. rewrite Hid.
  open_try. cbn [update prog_bind run].
  erewrite run_try_resolved by (cbn [peer]; exact E).
  unfold read.
  destruct Hdata as [-> | ->]; (split; [reflexivity | eexists; reflexivity]).
Qed.

Lemma fetchContacts_null_data_is_a_failure_witness :
  target (snd (run Fixtures.null_body ContactList.apply_action
                 (ContactList.fetchContacts "conn-42")
                 (Fixtures.browser tt Fixtures.shown))) = Fixtures.shown.
Proof.
  exact (proj1 (@fetchContacts_null_data_is_a_failure _ Fixtures.null_body "conn-42"
                  (Fixtures.browser tt Fixtures.shown)
                  {| status := 200; data := JNull |} tt
                  eq_refl eq_refl (or_introl eq_refl))).
Defined.

(** X8.  With a connection identifier present and whatever the gateway
    does, [fetchContacts] lets no exception escape, makes exactly one
    request, a GET of [/api/contacts?connectionId=<id>] without headers, and
    ends with the loading flag down; the list it leaves is the one it found,
    or the [contacts] field of the answer it received. *)
Theorem fetchContacts_always_settles
  (V : Type) (remote : call -> V -> outcome * V)
  (connectionId : string) (w : world V ContactList.State) :
  truthy_string connectionId = true ->
  fst (run remote ContactList.apply_action
         (ContactList.fetchContacts connectionId) w) = inr tt /\
  sent (snd (run remote ContactList.apply_action
               (ContactList.fetchContacts connectionId) w)) =
    (sent w ++ [HttpGet ("/api/contacts?connectionId=" ++ connectionId) []])%list /\
  ContactList.isLoading
    (target (snd (run remote ContactList.apply_action
                    (ContactList.fetchContacts connectionId) w))) = false /\
  (ContactList.contacts
     (target (snd (run remote ContactList.apply_action
                     (ContactList.fetchContacts connectionId) w))) =
     ContactList.contacts (target w)
   \/
   exists response v,
     remote (HttpGet ("/api/contacts?connectionId=" ++ connectionId) []) (peer w)
       = (Resolved response, v) /\
     js_get (data response) "contacts" =
       inr (ContactList.contacts
              (target (snd (run remote ContactList.apply_action
                              (ContactList.fetchContacts connectionId) w))))).
Proof.
  intros Hid.
  destruct (fetchContacts_run_cases remote connectionId w Hid)
    as [(response & v & value & E & Hread & Hrun)
       | (v & thrown & _ & Hrun)];
    rewrite Hrun; cbn [fst snd sent target ContactList.isLoading ContactList.contacts].
  - repeat split. right. exists response, v. split; [exact E | exact Hread].
  - repeat split. left. reflexivity.
Qed.

Lemma fetchContacts_always_settles_witness :
  sent (snd (run Fixtures.unreachable ContactList.apply_action
               (ContactList.fetchContacts "conn-42")
               (Fixtures.browser tt Fixtures.shown))) =
    [HttpGet "/api/contacts?connectionId=conn-42" []] /\
  ContactList.isLoading
    (target (snd (run Fixtures.unreachable ContactList.apply_action
                    (ContactList.fetchContacts "conn-42")
                    (Fixtures.browser tt Fixtures.shown)))) = false.
Proof.
  destruct (@fetchContacts_always_settles _ Fixtures.unreachable "conn-42"
              (Fixtures.browser tt Fixtures.shown) eq_refl) as (_ & Hsent & Hflag & _).
  split; [exact Hsent | exact Hflag].
Defined.





(** ** Further properties of the Creation view *)

Lemma handleSubmit_run_cases
  (V : Type) (remote : call -> V -> outcome * V)
  (connectionId : string) (rendered : CreateContact.State)
  (w : world V CreateContact.Submission) :
  truthy_string connectionId = true ->
  (exists response v,
      remote (HttpPost (CreateContact.gateway_url connectionId)
                (JObj [("firstName", JStr (CreateContact.firstName rendered));
                       ("lastName", JStr (CreateContact.lastName rendered))]) [])
        (peer w) = (Resolved response, v) /\
      run remote CreateContact.apply_action
        (CreateContact.handleSubmit connectionId rendered) w =
      (inr tt,
       {| peer := v;
          sent := sent w ++
                  [HttpPost (CreateContact.gateway_url connectionId)
                     (JObj [("firstName", JStr (CreateContact.firstName rendered));
                            ("lastName", JStr (CreateContact.lastName rendered))]) []];
          console := console w ++ [console_log_entry "Contact added:" (data response)];
          target := {| CreateContact.form := CreateContact.initial;
                       CreateContact.defaultPrevented := true |} |}))
  \/
  (exists error v,
      remote (HttpPost (CreateContact.gateway_url connectionId)
                (JObj [("firstName", JStr (CreateContact.firstName rendered));
                       ("lastName", JStr (CreateContact.lastName rendered))]) [])
        (peer w) = (Rejected error, v) /\
      run remote CreateContact.apply_action
        (CreateContact.handleSubmit connectionId rendered) w =
      (inr tt,
       {| peer := v;
          sent := sent w ++
                  [HttpPost (CreateContact.gateway_url connectionId)
                     (JObj [("firstName", JStr (CreateContact.firstName rendered));
                            ("lastName", JStr (CreateContact.lastName rendered))]) []];
          console := console w ++
                     [console_error_entry "Error adding contact:" (Some error)];
          target := {| CreateContact.form := CreateContact.form (target w);
                       CreateContact.defaultPrevented := true |} |})).
Proof.
  intros Hid. unfold CreateContact.handleSubmit. rewrite Hid.
  open_try. cbn [update prog_bind run].
  destruct (remote (HttpPost (CreateContact.gateway_url connectionId)
                      (JObj [("firstName", JStr (CreateContact.firstName rendered));
                             ("lastName", JStr (CreateContact.lastName rendered))]) [])
              (peer w)) as [[response | error] v] eqn:E.
  - left. exists response, v. split; [first [exact E | reflexivity] |].
    erewrite run_try_resolved by (cbn [peer]; exact E). reflexivity.
  - right. exists error, v. split; [first [exact E | reflexivity] |].
    erewrite run_try_rejected by (cbn [peer]; exact E). reflexivity.
Qed.

(** X11.  Whatever the connection identifier and whatever the gateway does,
    [handleSubmit] lets no exception escape, always prevents the default
    action of the submit event, and makes at most one request. *)
Theorem handleSubmit_always_settles
  (V : Type) (remote : call -> V -> outcome * V)
  (connectionId : string) (rendered : CreateContact.State)
  (w : world V CreateContact.Submission) :
  fst (run remote CreateContact.apply_action
         (CreateContact.handleSubmit connectionId rendered) w) = inr tt /\
  CreateContact.defaultPrevented
    (target (snd (run remote CreateContact.apply_action
                    (CreateContact.handleSubmit connectionId rendered) w))) = true /\
  (sent (snd (run remote CreateContact.apply_action
                (CreateContact.handleSubmit connectionId rendered) w)) = sent w
   \/
   exists c,
     sent (snd (run remote CreateContact.apply_action
                  (CreateContact.handleSubmit connectionId rendered) w)) =
       (sent w ++ [c])%list).
Proof.
  destruct (truthy_string connectionId) eqn:Hid.
  - destruct (handleSubmit_run_cases remote connectionId rendered w Hid)
      as [(response & v & _ & Hrun) | (error & v & _ & Hrun)];
      rewrite Hrun; cbn [fst snd sent target CreateContact.defaultPrevented];
      (split; [reflexivity | split; [reflexivity | right; eexists; reflexivity]]).
  - unfold CreateContact.handleSubmit. rewrite Hid. simpl.
    split; [reflexivity | split; [reflexivity | left; reflexivity]].
Qed.

(** X12.  A submission without a connection identifier makes no request and
    leaves the form as it is; it logs "No connection ID. Please connect to
    Salesforce first." and nothing else. *)
Theorem handleSubmit_without_connection
  (V : Type) (remote : call -> V -> outcome * V)
  (connectionId : string) (rendered : CreateContact.State)
  (w : world V CreateContact.Submission) :
  truthy_string connectionId = false ->
  run remote CreateContact.apply_action
    (CreateContact.handleSubmit connectionId rendered) w =
  (inr tt,
   {| peer := peer w;
      sent := sent w;
      console := console w ++
                 [console_error_entry
                    "No connection ID. Please connect to Salesforce first." None];
      target := {| CreateContact.form := CreateContact.form (target w);
                   CreateContact.defaultPrevented := true |} |}).
Proof.
  intros Hid. unfold CreateContact.handleSubmit. rewrite Hid. reflexivity.
Qed.

Lemma handleSubmit_without_connection_witness :
  sent (snd (run Fixtures.vendor CreateContact.apply_action
               (CreateContact.handleSubmit "" Fixtures.typed)
               (Fixtures.browser [] Fixtures.submitting))) = [] /\
  CreateContact.form
    (target (snd (run Fixtures.vendor CreateContact.apply_action
                    (CreateContact.handleSubmit "" Fixtures.typed)
                    (Fixtures.browser [] Fixtures.submitting)))) = Fixtures.typed.
Proof.
  rewrite (@handleSubmit_without_connection _ Fixtures.vendor "" Fixtures.typed
             (Fixtures.browser [] Fixtures.submitting) eq_refl).
  split; reflexivity.
Defined.

(** X13.  A submission with a connection identifier makes exactly one
    request, whichever way it settles: a POST to
    [/api/contacts?connectionId=<id>], without headers, whose body holds the
    two names that were on screen when the component was rendered, unchecked
    (the handler itself accepts empty names).  Afterwards the form is empty
    if the request was answered, and untouched if it was rejected. *)
Theorem handleSubmit_posts_rendered_names
  (V : Type) (remote : call -> V -> outcome * V)
  (connectionId : string) (rendered : CreateContact.State)
  (w : world V CreateContact.Submission) :
  truthy_string connectionId = true ->
  sent (snd (run remote CreateContact.apply_action
               (CreateContact.handleSubmit connectionId rendered) w)) =
    (sent w ++
     [HttpPost ("/api/contacts?connectionId=" ++ connectionId)
        (JObj [("firstName", JStr (CreateContact.firstName rendered));
               ("lastName", JStr (CreateContact.lastName rendered))]) []])%list /\
  ((exists response v,
       remote (HttpPost ("/api/contacts?connectionId=" ++ connectionId)
                 (JObj [("firstName", JStr (CreateContact.firstName rendered));
                        ("lastName", JStr (CreateContact.lastName rendered))]) [])
         (peer w) = (Resolved response, v) /\
       CreateContact.form
         (target (snd (run remote CreateContact.apply_action
                         (CreateContact.handleSubmit connectionId rendered) w))) =
         {| CreateContact.firstName := ""; CreateContact.lastName := "" |})
   \/
   (exists error v,
       remote (HttpPost ("/api/contacts?connectionId=" ++ connectionId)
                 (JObj [("firstName", JStr (CreateContact.firstName rendered));
                        ("lastName", JStr (CreateContact.lastName rendered))]) [])
         (peer w) = (Rejected error, v) /\
       CreateContact.form
         (target (snd (run remote CreateContact.apply_action
                         (CreateContact.handleSubmit connectionId rendered) w))) =
         CreateContact.form (target w))).
Proof.
  intros Hid.
  destruct (handleSubmit_run_cases remote connectionId rendered w Hid)
    as [(response & v & E & Hrun) | (error & v & E & Hrun)];
    rewrite Hrun; cbn [snd sent target CreateContact.form].
  - split; [reflexivity | left; exists response, v; split; [exact E | reflexivity]].
  - split; [reflexivity | right; exists error, v; split; [exact E | reflexivity]].
Qed.

Lemma handleSubmit_posts_rendered_names_witness :
  sent (snd (run Fixtures.unreachable CreateContact.apply_action
               (CreateContact.handleSubmit "conn-42" CreateContact.initial)
               (Fixtures.browser tt Fixtures.submitting))) =
    [HttpPost "/api/contacts?connectionId=conn-42"
       (JObj [("firstName", JStr ""); ("lastName", JStr "")]) []].
Proof.
  exact (proj1 (@handleSubmit_posts_rendered_names _ Fixtures.unreachable "conn-42"
                  CreateContact.initial (Fixtures.browser tt Fixtures.submitting)
                  eq_refl)).
Defined.

(** ** Further properties of the page *)










(** ** The connector *)

Lemma connect_run_cases
  (V : Type) (remote : call -> V -> outcome * V)
  (sdk : bool) (w : world V (list ConnectApp.action)) :
  (exists response v token,
      sdk = true /\
      remote (HttpGet "/api/get-jwt-token" []) (peer w) = (Resolved response, v) /\
      js_get (data response) "token" = inr token /\
      run remote ConnectApp.apply_action (ConnectApp.fetchTokenAndAuthenticate sdk) w =
      (inr tt,
       {| peer := v;
          sent := sent w ++ [HttpGet "/api/get-jwt-token" []];
          console := console w;
          target := (target w ++
                     [ConnectApp.Alloy_setToken token;
                      ConnectApp.Alloy_authenticate "crm"])%list |}))
  \/
  (exists response v,
      sdk = false /\
      remote (HttpGet "/api/get-jwt-token" []) (peer w) = (Resolved response, v) /\
      run remote ConnectApp.apply_action (ConnectApp.fetchTokenAndAuthenticate sdk) w =
      (inr tt,
       {| peer := v;
          sent := sent w ++ [HttpGet "/api/get-jwt-token" []];
          console := console w ++ [console_error_entry "Alloy SDK not found" None];
          target := target w |}))
  \/
  (exists thrown v,
      ((exists response,
           sdk = true /\
           remote (HttpGet "/api/get-jwt-token" []) (peer w) = (Resolved response, v) /\
           js_get (data response) "token" = inl thrown)
       \/
       remote (HttpGet "/api/get-jwt-token" []) (peer w) = (Rejected thrown, v)) /\
      run remote ConnectApp.apply_action (ConnectApp.fetchTokenAndAuthenticate sdk) w =
      (inr tt,
       {| peer := v;
          sent := sent w ++ [HttpGet "/api/get-jwt-token" []];
          console := console w ++
                     [console_error_entry "Error fetching JWT token:" (Some thrown)];
          target := target w |})).
Proof.
  unfold ConnectApp.fetchTokenAndAuthenticate. open_try.
  destruct (remote (HttpGet "/api/get-jwt-token" []) (peer w))
    as [[response | error] v] eqn:E; await_with E.
  - destruct sdk.
    + unfold read.
      destruct (js_get (data response) "token") as [thrown | token] eqn:Hread.
      * right. right. exists thrown, v. split; [| reflexivity].
        left. exists response. repeat split; first [exact E | exact Hread | reflexivity].
      * left. exists response, v, token. simpl.
        unfold ConnectApp.apply_action. rewrite <- app_assoc.
        repeat split; first [exact E | exact Hread | reflexivity].
    + right. left. exists response, v.
      repeat split; first [exact E | reflexivity].
  - right. right. exists error, v. split; [| reflexivity].
    right. first [exact E | reflexivity].
Qed.

(** X17.  With the SDK loaded, when the token request is answered and
    [response.data.token] reads as [token], the connector hands exactly that
    value to [Alloy.setToken] and then calls [Alloy.authenticate] for the
    category "crm"; it made one request, a GET of [/api/get-jwt-token].
    Nothing checks the value: a token that reads as [undefined] is handed
    over all the same. *)
Theorem connector_hands_token_to_sdk
  (V : Type) (remote : call -> V -> outcome * V)
  (w : world V (list ConnectApp.action))
  (response : AxiosResponse) (v : V) (token : jsval) :
  remote (HttpGet "/api/get-jwt-token" []) (peer w) = (Resolved response, v) ->
  js_get (data response) "token" = inr token ->
  run remote ConnectApp.apply_action (ConnectApp.fetchTokenAndAuthenticate true) w =
  (inr tt,
   {| peer := v;
      sent := sent w ++ [HttpGet "/api/get-jwt-token" []];
      console := console w;
      target := (target w ++
                 [ConnectApp.Alloy_setToken token;
                  ConnectApp.Alloy_authenticate "crm"])%list |}).
Proof.
  intros E Hread.
  unfold ConnectApp.fetchTokenAndAuthenticate. open_try. await_with E.
  unfold read. rewrite Hread. simpl.
  unfold ConnectApp.apply_action. rewrite <- app_assoc. reflexivity.
Qed.

Lemma connector_hands_token_to_sdk_witness :
  target (snd (run Fixtures.tokenless ConnectApp.apply_action
                 (ConnectApp.fetchTokenAndAuthenticate true)
                 (Fixtures.browser tt []))) =
    [ConnectApp.Alloy_setToken JUndefined; ConnectApp.Alloy_authenticate "crm"].
Proof.
  rewrite (@connector_hands_token_to_sdk _ Fixtures.tokenless (Fixtures.browser tt [])
             {| status := 200; data := JObj [] |} tt JUndefined eq_refl eq_refl).
  reflexivity.
Defined.

(** X18.  Whatever the gateway does and whether or not the SDK is loaded,
    the connector lets no exception escape and makes exactly one request, a
    GET of [/api/get-jwt-token].  It touches the SDK only after an answer
    from which a token could be read, and then only by [setToken] with that
    token followed by [authenticate]; in every other case it calls nothing
    and logs one error line. *)
Theorem connector_always_settles
  (V : Type) (remote : call -> V -> outcome * V)
  (sdk : bool) (w : world V (list ConnectApp.action)) :
  fst (run remote ConnectApp.apply_action (ConnectApp.fetchTokenAndAuthenticate sdk) w)
    = inr tt /\
  sent (snd (run remote ConnectApp.apply_action
               (ConnectApp.fetchTokenAndAuthenticate sdk) w)) =
    (sent w ++ [HttpGet "/api/get-jwt-token" []])%list /\
  ((exists response v token,
       sdk = true /\
       remote (HttpGet "/api/get-jwt-token" []) (peer w) = (Resolved response, v) /\
       js_get (data response) "token" = inr token /\
       target (snd (run remote ConnectApp.apply_action
                      (ConnectApp.fetchTokenAndAuthenticate sdk) w)) =
         (target w ++
          [ConnectApp.Alloy_setToken token; ConnectApp.Alloy_authenticate "crm"])%list /\
       console (snd (run remote ConnectApp.apply_action
                       (ConnectApp.fetchTokenAndAuthenticate sdk) w)) = console w)
   \/
   (target (snd (run remote ConnectApp.apply_action
                   (ConnectApp.fetchTokenAndAuthenticate sdk) w)) = target w /\
    exists line,
      console (snd (run remote ConnectApp.apply_action
                      (ConnectApp.fetchTokenAndAuthenticate sdk) w)) =
        (console w ++ [line])%list)).
Proof.
  destruct (connect_run_cases remote sdk w)
    as [(response & v & token & Hsdk & E & Hread & Hrun)
       | [(response & v & Hsdk & E & Hrun)
         | (thrown & v & _ & Hrun)]];
    rewrite Hrun; cbn [fst snd sent target console];
    (split; [reflexivity | split; [reflexivity |]]).
  - left. exists response, v, token. repeat split; assumption.
  - right. split; [reflexivity | eexists; reflexivity].
  - right. split; [reflexivity | eexists; reflexivity].
Qed.

(** X19.  The two ways the connector gives up.  When the token request is
    rejected it logs "Error fetching JWT token:" with the error and calls
    nothing.  When the answer arrives but the SDK is not loaded it logs
    "Alloy SDK not found" and calls nothing: the token was requested and is
    dropped. *)
Theorem connector_gives_up
  (V : Type) (remote : call -> V -> outcome * V)
  (w : world V (list ConnectApp.action)) (v : V) :
  (forall sdk error,
      remote (HttpGet "/api/get-jwt-token" []) (peer w) = (Rejected error, v) ->
      run remote ConnectApp.apply_action (ConnectApp.fetchTokenAndAuthenticate sdk) w =
      (inr tt,
       {| peer := v;
          sent := sent w ++ [HttpGet "/api/get-jwt-token" []];
          console := console w ++
                     [console_error_entry "Error fetching JWT token:" (Some error)];
          target := target w |})) /\
  (forall response,
      remote (HttpGet "/api/get-jwt-token" []) (peer w) = (Resolved response, v) ->
      run remote ConnectApp.apply_action (ConnectApp.fetchTokenAndAuthenticate false) w =
      (inr tt,
       {| peer := v;
          sent := sent w ++ [HttpGet "/api/get-jwt-token" []];
          console := console w ++ [console_error_entry "Alloy SDK not found" None];
          target := target w |})).
Proof.
  split.
  - intros sdk error E.
    unfold ConnectApp.fetchTokenAndAuthenticate. open_try. await_with E. reflexivity.
  - intros response E.
    unfold ConnectApp.fetchTokenAndAuthenticate. open_try. await_with E. reflexivity.
Qed.

Lemma connector_gives_up_witness :
  target (snd (run Fixtures.unreachable ConnectApp.apply_action
                 (ConnectApp.fetchTokenAndAuthenticate true)
                 (Fixtures.browser tt []))) = [] /\
  console (snd (run Fixtures.tokenless ConnectApp.apply_action
                  (ConnectApp.fetchTokenAndAuthenticate false)
                  (Fixtures.browser tt []))) =
    [console_error_entry "Alloy SDK not found" None].
Proof.
  destruct (@connector_gives_up _ Fixtures.unreachable (Fixtures.browser tt []) tt)
    as [Hrejected _].
  destruct (@connector_gives_up _ Fixtures.tokenless (Fixtures.browser tt []) tt)
    as [_ Habsent].
  split.
  - rewrite (Hrejected true Fixtures.refused eq_refl). reflexivity.
  - rewrite (Habsent {| status := 200; data := JObj [] |} eq_refl). reflexivity.
Defined.

(** X20.  The callback given to [authenticate].  When [data.success] is
    truthy it stores [data.connectionId] under the key "connectionId" and
    then announces the same value to the page, in that order, and makes no
    request.  When [data.success] is falsy or missing it does nothing.  When
    [data] is [null] or [undefined] the TypeError escapes, nothing having
    been stored or announced. *)
Theorem callback_cases
  (V : Type) (remote : call -> V -> outcome * V)
  (data : jsval) (w : world V (list ConnectApp.action)) :
  (forall success id,
      js_get data "success" = inr success ->
      js_truthy success = true ->
      js_get data "connectionId" = inr id ->
      run remote ConnectApp.apply_action (ConnectApp.callback data) w =
      (inr tt,
       {| peer := peer w; sent := sent w; console := console w;
          target := (target w ++
                     [ConnectApp.localStorage_setItem "connectionId" id;
                      ConnectApp.onConnectionEstablished id])%list |})) /\
  (forall success,
      js_get data "success" = inr success ->
      js_truthy success = false ->
      run remote ConnectApp.apply_action (ConnectApp.callback data) w = (inr tt, w)) /\
  (data = JNull \/ data = JUndefined ->
   exists thrown,
     run remote ConnectApp.apply_action (ConnectApp.callback data) w = (inl thrown, w)).
Proof.
  unfold ConnectApp.callback, bind, Monad_prog, read.
  split; [| split].
  - intros success id Hs Ht Hid. rewrite Hs. cbn [prog_bind]. rewrite Ht.
    rewrite Hid. simpl.
    unfold ConnectApp.apply_action. rewrite <- app_assoc. reflexivity.
  - intros success Hs Hf. rewrite Hs. cbn [prog_bind]. rewrite Hf. reflexivity.
  - intros [-> | ->]; eexists; reflexivity.
Qed.

Lemma callback_cases_witness :
  target (snd (run Fixtures.vendor ConnectApp.apply_action
                 (ConnectApp.callback Scenes.linked_data) (Fixtures.browser [] []))) =
    [ConnectApp.localStorage_setItem "connectionId" (JStr "conn-42");
     ConnectApp.onConnectionEstablished (JStr "conn-42")] /\
  target (snd (run Fixtures.vendor ConnectApp.apply_action
                 (ConnectApp.callback Scenes.cancelled_data) (Fixtures.browser [] []))) =
    [] /\
  fst (run Fixtures.vendor ConnectApp.apply_action
         (ConnectApp.callback JNull) (Fixtures.browser [] [])) <> inr tt.
Proof.
  destruct (@callback_cases _ Fixtures.vendor Scenes.linked_data (Fixtures.browser [] []))
    as (Hyes & _ & _).
  destruct (@callback_cases _ Fixtures.vendor Scenes.cancelled_data (Fixtures.browser [] []))
    as (_ & Hno & _).
  destruct (@callback_cases _ Fixtures.vendor JNull (Fixtures.browser [] []))
    as (_ & _ & Hnull).
  split; [| split].
  - rewrite (Hyes (JBool true) (JStr "conn-42") eq_refl eq_refl eq_refl). reflexivity.
  - rewrite (Hno (JBool false) eq_refl eq_refl). reflexivity.
  - destruct (Hnull (or_introl eq_refl)) as (thrown & ->). discriminate.
Defined.

(** ** The views and the routes together *)

(** What a view's GET of the contacts comes back with, through the route. *)
Lemma gateway_get
  (V : Type) (vendor : call -> V -> outcome * V)
  (deliver : call -> NextApiRequest) (receive : ServerResponse -> outcome)
  (env : Env) (id : string) (v : V) (b : jsval) :
  truthy_string id = true ->
  deliver (HttpGet ("/api/contacts?connectionId=" ++ id) []) =
    {| method := "GET"; query := [("connectionId", QString id)]; body := b |} ->
  (forall response v',
      vendor (HttpGet ("https://embedded.runalloy.com/2023-12/one/crm/contacts?connectionId="
                       ++ id) (Contacts.get_headers env)) v = (Resolved response, v') ->
      through_gateway vendor deliver receive (Contacts.handler env)
        (HttpGet ("/api/contacts?connectionId=" ++ id) []) v =
      (receive {| statusCode := 200; responseHeaders := [];
                  sentBody := Some (JsonBody (data response)) |}, v')) /\
  (forall error v',
      vendor (HttpGet ("https://embedded.runalloy.com/2023-12/one/crm/contacts?connectionId="
                       ++ id) (Contacts.get_headers env)) v = (Rejected error, v') ->
      through_gateway vendor deliver receive (Contacts.handler env)
        (HttpGet ("/api/contacts?connectionId=" ++ id) []) v =
      (receive {| statusCode := 500; responseHeaders := [];
                  sentBody := Some (JsonBody
                                (JObj [("error", JStr "Error fetching contacts")])) |}, v')).
Proof.
  intros Hid Hd.
  split; intros x v' E; unfold through_gateway, serve, respond; rewrite Hd;
    unfold Contacts.handler; cbn [query method query_get String.eqb Ascii.eqb Bool.eqb];
    cbn [truthy_query]; rewrite Hid; simpl negb; cbv iota;
    open_try; unfold Contacts.vendor_url; cbn [template_query];
    await_with E; reflexivity.
Qed.

(** What a view's POST of a contact comes back with, through the route. *)
Lemma gateway_post
  (V : Type) (vendor : call -> V -> outcome * V)
  (deliver : call -> NextApiRequest) (receive : ServerResponse -> outcome)
  (env : Env) (id : string) (v : V) (record : jsval) :
  truthy_string id = true ->
  deliver (HttpPost ("/api/contacts?connectionId=" ++ id) record []) =
    {| method := "POST"; query := [("connectionId", QString id)]; body := record |} ->
  (forall response v',
      vendor (HttpPost ("https://embedded.runalloy.com/2023-12/one/crm/contacts?connectionId="
                        ++ id) record (Contacts.post_headers env)) v
        = (Resolved response, v') ->
      through_gateway vendor deliver receive (Contacts.handler env)
        (HttpPost ("/api/contacts?connectionId=" ++ id) record []) v =
      (receive {| statusCode := 200; responseHeaders := [];
                  sentBody := Some (JsonBody (data response)) |}, v')) /\
  (forall error v',
      vendor (HttpPost ("https://embedded.runalloy.com/2023-12/one/crm/contacts?connectionId="
                        ++ id) record (Contacts.post_headers env)) v
        = (Rejected error, v') ->
      through_gateway vendor deliver receive (Contacts.handler env)
        (HttpPost ("/api/contacts?connectionId=" ++ id) record []) v =
      (receive {| statusCode := 500; responseHeaders := [];
                  sentBody := Some (JsonBody
                                (JObj [("error", JStr "Error creating contact")])) |}, v')).
Proof.
  intros Hid Hd.
  split; intros x v' E; unfold through_gateway, serve, respond; rewrite Hd;
    unfold Contacts.handler; cbn [query method body query_get String.eqb Ascii.eqb Bool.eqb];
    cbn [truthy_query]; rewrite Hid; simpl negb; cbv iota;
    open_try; unfold Contacts.vendor_url; cbn [template_query];
    await_with E; reflexivity.
Qed.

(** X21.  Listing, from the view to the vendor and back.  Suppose the
    view's GET reaches the contacts route as a GET carrying the identifier,
    a 200 with a JSON body resolves the view's promise with that body, and a
    500 rejects it.  Then, when the vendor answers, the view ends up holding
    exactly the [contacts] field of the vendor's answer; when the vendor
    call is rejected, the view keeps its list, and the error it logs is the
    one made from the route's fixed 500 answer, whatever the vendor's error
    was. *)
Theorem listing_end_to_end
  (V : Type) (vendor : call -> V -> outcome * V)
  (deliver : call -> NextApiRequest) (receive : ServerResponse -> outcome)
  (env : Env) (id : string) (b : jsval) (w : world V ContactList.State) :
  truthy_string id = true ->
  deliver (HttpGet ("/api/contacts?connectionId=" ++ id) []) =
    {| method := "GET"; query := [("connectionId", QString id)]; body := b |} ->
  (forall d, receive {| statusCode := 200; responseHeaders := [];
                        sentBody := Some (JsonBody d) |} =
             Resolved {| status := 200; data := d |}) ->
  (forall d, exists e, receive {| statusCode := 500; responseHeaders := [];
                                  sentBody := Some (JsonBody d) |} = Rejected e) ->
  (forall response v value,
      vendor (HttpGet ("https://embedded.runalloy.com/2023-12/one/crm/contacts?connectionId="
                       ++ id) (Contacts.get_headers env)) (peer w)
        = (Resolved response, v) ->
      js_get (data response) "contacts" = inr value ->
      target (snd (run (through_gateway vendor deliver receive (Contacts.handler env))
                     ContactList.apply_action (ContactList.fetchContacts id) w)) =
        {| ContactList.contacts := value; ContactList.isLoading := false |}) /\
  (forall error v,
      vendor (HttpGet ("https://embedded.runalloy.com/2023-12/one/crm/contacts?connectionId="
                       ++ id) (Contacts.get_headers env)) (peer w)
        = (Rejected error, v) ->
      target (snd (run (through_gateway vendor deliver receive (Contacts.handler env))
                     ContactList.apply_action (ContactList.fetchContacts id) w)) =
        {| ContactList.contacts := ContactList.contacts (target w);
           ContactList.isLoading := false |} /\
      exists thrown,
        receive {| statusCode := 500; responseHeaders := [];
                   sentBody := Some (JsonBody
                                 (JObj [("error", JStr "Error fetching contacts")])) |}
          = Rejected thrown /\
        console (snd (run (through_gateway vendor deliver receive (Contacts.handler env))
                        ContactList.apply_action (ContactList.fetchContacts id) w)) =
          (console w ++
           [console_error_entry "Error fetching contacts:" (Some thrown)])%list).
Proof.
  intros Hid Hd Hok Hfail.
  destruct (@gateway_get _ vendor deliver receive env id (peer w) b Hid Hd) as [Hyes Hno].
  split.
  - intros response v value E Hread.
    specialize (Hyes response v E). rewrite Hok in Hyes.
    unfold ContactList.fetchContacts. rewrite Hid.
    open_try. cbn [update prog_bind run].
    erewrite run_try_resolved by (cbn [peer]; exact Hyes).
    unfold read. cbn [data]. rewrite Hread. reflexivity.
  - intros error v E.
    specialize (Hno error v E).
    destruct (Hfail (JObj [("error", JStr "Error fetching contacts")])) as [thrown Hthrown].
    rewrite Hthrown in Hno.
    unfold ContactList.fetchContacts. rewrite Hid.
    open_try. cbn [update prog_bind run].
    erewrite run_try_rejected by (cbn [peer]; exact Hno).
    split; [reflexivity |]. exists thrown. split; [exact Hthrown | reflexivity].
Qed.

Lemma receive_rejects_500 (d : jsval) :
  exists e, Scenes.receive {| statusCode := 500; responseHeaders := [];
                              sentBody := Some (JsonBody d) |} = Rejected e.
Proof. eexists. reflexivity. Qed.

Lemma listing_end_to_end_witness :
  target (snd (run (through_gateway Fixtures.vendor Scenes.deliver Scenes.receive
                      (Contacts.handler Fixtures.env))
                 ContactList.apply_action (ContactList.fetchContacts "conn-42")
                 (Fixtures.browser [Fixtures.ada; Scenes.grace] ContactList.initial))) =
    {| ContactList.contacts := JArr [Fixtures.ada; Scenes.grace];
       ContactList.isLoading := false |} /\
  target (snd (run (through_gateway Fixtures.unreachable Scenes.deliver Scenes.receive
                      (Contacts.handler Fixtures.env))
                 ContactList.apply_action (ContactList.fetchContacts "conn-42")
                 (Fixtures.browser tt Fixtures.shown))) = Fixtures.shown.
Proof.
  split.
  - exact (proj1 (@listing_end_to_end _ Fixtures.vendor Scenes.deliver Scenes.receive
                    Fixtures.env "conn-42" JUndefined
                    (Fixtures.browser [Fixtures.ada; Scenes.grace] ContactList.initial)
                    eq_refl eq_refl (fun d => eq_refl) receive_rejects_500)
             {| status := 200;
                data := JObj [("contacts", JArr [Fixtures.ada; Scenes.grace])] |}
             [Fixtures.ada; Scenes.grace] (JArr [Fixtures.ada; Scenes.grace])
             eq_refl eq_refl).
  - exact (proj1 (proj2 (@listing_end_to_end _ Fixtures.unreachable Scenes.deliver
                           Scenes.receive Fixtures.env "conn-42" JUndefined
                           (Fixtures.browser tt Fixtures.shown)
                           eq_refl eq_refl (fun d => eq_refl) receive_rejects_500)
                    Fixtures.refused tt eq_refl)).
Defined.

(** X22.  Creating, from the form to the vendor and back.  Suppose the
    form's POST reaches the contacts route as a POST carrying the identifier
    and the same body, a 200 with a JSON body resolves the form's promise
    with that body, and a 500 rejects it.  Then the vendor is asked to create
    exactly the two names that were on screen; when it answers, the record it
    returned is what the form logs as added and the form is emptied; when the
    vendor call is rejected, the form keeps what the user typed. *)
Theorem create_end_to_end
  (V : Type) (vendor : call -> V -> outcome * V)
  (deliver : call -> NextApiRequest) (receive : ServerResponse -> outcome)
  (env : Env) (id : string) (rendered : CreateContact.State)
  (w : world V CreateContact.Submission) :
  truthy_string id = true ->
  deliver (HttpPost ("/api/contacts?connectionId=" ++ id)
             (JObj [("firstName", JStr (CreateContact.firstName rendered));
                    ("lastName", JStr (CreateContact.lastName rendered))]) []) =
    {| method := "POST"; query := [("connectionId", QString id)];
       body := JObj [("firstName", JStr (CreateContact.firstName rendered));
                     ("lastName", JStr (CreateContact.lastName rendered))] |} ->
  (forall d, receive {| statusCode := 200; responseHeaders := [];
                        sentBody := Some (JsonBody d) |} =
             Resolved {| status := 200; data := d |}) ->
  (forall d, exists e, receive {| statusCode := 500; responseHeaders := [];
                                  sentBody := Some (JsonBody d) |} = Rejected e) ->
  (forall response v,
      vendor (HttpPost ("https://embedded.runalloy.com/2023-12/one/crm/contacts?connectionId="
                        ++ id)
                (JObj [("firstName", JStr (CreateContact.firstName rendered));
                       ("lastName", JStr (CreateContact.lastName rendered))])
                (Contacts.post_headers env)) (peer w) = (Resolved response, v) ->
      run (through_gateway vendor deliver receive (Contacts.handler env))
        CreateContact.apply_action (CreateContact.handleSubmit id rendered) w =
      (inr tt,
       {| peer := v;
          sent := sent w ++
                  [HttpPost ("/api/contacts?connectionId=" ++ id)
                     (JObj [("firstName", JStr (CreateContact.firstName rendered));
                            ("lastName", JStr (CreateContact.lastName rendered))]) []];
          console := console w ++ [console_log_entry "Contact added:" (data response)];
          target := {| CreateContact.form :=
                         {| CreateContact.firstName := ""; CreateContact.lastName := "" |};
                       CreateContact.defaultPrevented := true |} |})) /\
  (forall error v,
      vendor (HttpPost ("https://embedded.runalloy.com/2023-12/one/crm/contacts?connectionId="
                        ++ id)
                (JObj [("firstName", JStr (CreateContact.firstName rendered));
                       ("lastName", JStr (CreateContact.lastName rendered))])
                (Contacts.post_headers env)) (peer w) = (Rejected error, v) ->
      target (snd (run (through_gateway vendor deliver receive (Contacts.handler env))
                     CreateContact.apply_action
                     (CreateContact.handleSubmit id rendered) w)) =
        {| CreateContact.form := CreateContact.form (target w);
           CreateContact.defaultPrevented := true |} /\
      peer (snd (run (through_gateway vendor deliver receive (Contacts.handler env))
                   CreateContact.apply_action
                   (CreateContact.handleSubmit id rendered) w)) = v).
Proof.
  intros Hid Hd Hok Hfail.
  destruct (@gateway_post _ vendor deliver receive env id (peer w) _ Hid Hd) as [Hyes Hno].
  split.
  - intros response v E.
    specialize (Hyes response v E). rewrite Hok in Hyes.
    unfold CreateContact.handleSubmit. rewrite Hid.
    open_try. cbn [update prog_bind run].
    erewrite run_try_resolved by (cbn [peer]; exact Hyes).
    reflexivity.
  - intros error v E.
    specialize (Hno error v E).
    destruct (Hfail (JObj [("error", JStr "Error creating contact")])) as [thrown Hthrown].
    rewrite Hthrown in Hno.
    unfold CreateContact.handleSubmit. rewrite Hid.
    open_try. cbn [update prog_bind run].
    erewrite run_try_rejected by (cbn [peer]; exact Hno).
    split; reflexivity.
Qed.

Lemma create_end_to_end_witness :
  run (through_gateway Fixtures.vendor Scenes.deliver Scenes.receive
         (Contacts.handler Fixtures.env))
    CreateContact.apply_action (CreateContact.handleSubmit "conn-42" Fixtures.typed)
    (Fixtures.browser [] Fixtures.submitting) =
  (inr tt,
   {| peer := [Fixtures.ada];
      sent := [HttpPost "/api/contacts?connectionId=conn-42" Fixtures.ada []];
      console := [console_log_entry "Contact added:" Fixtures.ada];
      target := {| CreateContact.form := CreateContact.initial;
                   CreateContact.defaultPrevented := true |} |}) /\
  CreateContact.form
    (target (snd (run (through_gateway Fixtures.unreachable Scenes.deliver Scenes.receive
                         (Contacts.handler Fixtures.env))
                    CreateContact.apply_action
                    (CreateContact.handleSubmit "conn-42" Fixtures.typed)
                    (Fixtures.browser tt Fixtures.submitting)))) = Fixtures.typed.
Proof.
  split.
  - exact (proj1 (@create_end_to_end _ Fixtures.vendor Scenes.deliver Scenes.receive
                    Fixtures.env "conn-42" Fixtures.typed
                    (Fixtures.browser [] Fixtures.submitting)
                    eq_refl eq_refl (fun d => eq_refl) receive_rejects_500)
             {| status := 200; data := Fixtures.ada |} [Fixtures.ada] eq_refl).
  - exact (f_equal CreateContact.form
             (proj1 (proj2 (@create_end_to_end _ Fixtures.unreachable Scenes.deliver
                              Scenes.receive Fixtures.env "conn-42" Fixtures.typed
                              (Fixtures.browser tt Fixtures.submitting)
                              eq_refl eq_refl (fun d => eq_refl) receive_rejects_500)
                       Fixtures.refused tt eq_refl))).
Defined.

(** X23.  The token, from the vendor to the SDK.  Suppose a 200 whose JSON
    body is [{token}] resolves the connector's promise with an answer from
    which the same [token] reads.  Then, with the SDK loaded, when the
    vendor's token endpoint answers and [token] reads from its answer, the
    value handed to [Alloy.setToken] is the vendor's token; this holds
    however the connector's request is turned into a request object, since
    the token route does not look at it. *)
Theorem token_end_to_end
  (V : Type) (vendor : call -> V -> outcome * V)
  (deliver : call -> NextApiRequest) (receive : ServerResponse -> outcome)
  (env : Env) (w : world V (list ConnectApp.action))
  (response reply : AxiosResponse) (v : V) (token : jsval) :
  vendor (HttpGet (GetJwtToken.token_url env) (GetJwtToken.token_headers env)) (peer w)
    = (Resolved response, v) ->
  js_get (data response) "token" = inr token ->
  receive {| statusCode := 200; responseHeaders := [];
             sentBody := Some (JsonBody (JObj [("token", token)])) |} = Resolved reply ->
  js_get (data reply) "token" = inr token ->
  run (through_gateway vendor deliver receive (GetJwtToken.handler env))
    ConnectApp.apply_action (ConnectApp.fetchTokenAndAuthenticate true) w =
  (inr tt,
   {| peer := v;
      sent := sent w ++ [HttpGet "/api/get-jwt-token" []];
      console := console w;
      target := (target w ++
                 [ConnectApp.Alloy_setToken token;
                  ConnectApp.Alloy_authenticate "crm"])%list |}).
Proof.
  intros E Hread Hreply Hreread.
  assert (Hgate : through_gateway vendor deliver receive (GetJwtToken.handler env)
                    (HttpGet "/api/get-jwt-token" []) (peer w) = (Resolved reply, v)).
  { unfold through_gateway, serve, respond, GetJwtToken.handler.
    open_try. await_with E.
    unfold read. simpl. rewrite Hread. simpl. rewrite Hreply. reflexivity. }
  unfold ConnectApp.fetchTokenAndAuthenticate. open_try.
  erewrite run_try_resolved by exact Hgate.
  unfold read. rewrite Hreread. simpl.
  unfold ConnectApp.apply_action. rewrite <- app_assoc. reflexivity.
Qed.

Lemma token_end_to_end_witness :
  target (snd (run (through_gateway Fixtures.vendor Scenes.deliver Scenes.receive
                      (GetJwtToken.handler Fixtures.env))
                 ConnectApp.apply_action (ConnectApp.fetchTokenAndAuthenticate true)
                 (Fixtures.browser [] []))) =
  [ConnectApp.Alloy_setToken (JStr "jwt-abc"); ConnectApp.Alloy_authenticate "crm"].
Proof.
  rewrite (@token_end_to_end _ Fixtures.vendor Scenes.deliver Scenes.receive
             Fixtures.env (Fixtures.browser [] [])
             {| status := 200; data := JObj [("token", JStr "jwt-abc")] |}
             {| status := 200; data := JObj [("token", JStr "jwt-abc")] |}
             [] (JStr "jwt-abc") eq_refl eq_refl eq_refl eq_refl).
  reflexivity.
Defined.
